(** * extract.py: asset classification, export dispatch and manifest
      aggregation, as a shallow embedding.

    Python values are modelled as follows.
    - [str] is a list of Unicode code points ([pystr]); [bytes] is a list
      of byte values ([bytes]).
    - [int] is [Z].
    - A raised [Exception] is a value of [exn]; code that may raise returns
      [res A].  Only subclasses of [Exception] are modelled (the ones that
      [except Exception] catches).
    - The dict [seen_names] is a [gmap pystr Z].
    - The tables of [str.isalnum] and [str.isprintable] outside ASCII and
      the addition of one to a float are parameters of the development.
    - The file system is seen only through [os.path.getsize] of the path
      that was just written, which is the number of bytes written. *)

From Stdlib Require Import ZArith String Ascii.
From stdpp Require Import gmap list strings pretty.

Local Open Scope Z_scope.
Set Warnings "-register-all".

(** ** Python strings, bytes and exceptions *)

Definition pystr := list N.
Definition bytes := list N.

(** A string literal of the source: its characters as code points. *)
Definition py (s : string) : pystr := N_of_ascii <$> list_ascii_of_string s.

(** [str(n)] for an [int]. *)
Definition str_int (n : Z) : pystr := py (pretty n).

Arguments py : simpl never.
Arguments str_int : simpl never.

Record exn := Exn { exc_type : pystr; exc_msg : pystr; exc_tb : pystr }.

Inductive res (A : Type) : Type :=
| Ok (a : A)
| Raise (e : exn).
Arguments Ok {A} a.
Arguments Raise {A} e.

#[global] Instance res_ret : MRet res := @Ok.

#[global] Instance res_bind : MBind res := fun A B k m =>
  match m with
  | Ok a => k a
  | Raise e => Raise e
  end.

(** [try: body; except Exception: pass] around a block that sets a
    variable only when it completes. *)
Definition try_pass {A} (m : res (option A)) : option A :=
  match m with
  | Ok r => r
  | Raise _ => None
  end.

(** Exceptions raised by the library calls that are modelled.  The
    stack entries of a traceback depend on installation paths; they are
    left empty for these. *)
Definition FileNotFoundError : exn :=
  Exn (py "FileNotFoundError") (py "[Errno 2] No such file or directory: ''") [].
Definition UnicodeEncodeError : exn :=
  Exn (py "UnicodeEncodeError") (py "'utf-8' codec can't encode character: surrogates not allowed") [].
Definition TypeError : exn := Exn (py "TypeError") (py "unsupported operand") [].
Definition IndexError : exn := Exn (py "IndexError") (py "list index out of range") [].
Definition KeyError : exn := Exn (py "KeyError") (py "0") [].

Definition nl : pystr := [10%N].

(** [sep.join(parts)] *)
Fixpoint join (sep : pystr) (parts : list pystr) : pystr :=
  match parts with
  | [] => []
  | [p] => p
  | p :: rest => p ++ sep ++ join sep rest
  end.

(** ** Encoding text to bytes *)

Definition is_surrogate (c : N) : bool := ((55296 <=? c) && (c <=? 57343))%N.

(** UTF-8 bytes of one code point that is not a surrogate. *)
Definition utf8_char (c : N) : bytes :=
  (if c <? 128 then [c]
   else if c <? 2048 then
     [N.lor 192 (N.shiftr c 6); N.lor 128 (N.land c 63)]
   else if c <? 65536 then
     [N.lor 224 (N.shiftr c 12); N.lor 128 (N.land (N.shiftr c 6) 63);
      N.lor 128 (N.land c 63)]
   else
     [N.lor 240 (N.shiftr c 18); N.lor 128 (N.land (N.shiftr c 12) 63);
      N.lor 128 (N.land (N.shiftr c 6) 63); N.lor 128 (N.land c 63)])%N.

(** [s.encode("utf-8", errors="replace")]: a lone surrogate becomes [?]. *)
Definition encode_utf8_replace (s : pystr) : bytes :=
  s ≫= (fun c => if is_surrogate c then [63%N] else utf8_char c).

(** What a text-mode file opened with UTF-8 encoding stores for [s];
    a lone surrogate raises. *)
Fixpoint encode_utf8 (s : pystr) : res bytes :=
  match s with
  | [] => Ok []
  | c :: s' =>
      if is_surrogate c then Raise UnicodeEncodeError
      else (rest ← encode_utf8 s'; mret (utf8_char c ++ rest))
  end.

(** ** Paths ([posixpath]) *)

Definition slash : N := 47%N.

Definition startswith_slash (s : pystr) : bool :=
  match s with
  | c :: _ => (c =? slash)%N
  | [] => false
  end.

Definition endswith_slash (s : pystr) : bool :=
  match last s with
  | Some c => (c =? slash)%N
  | None => false
  end.

(** [os.path.join(a, b)] *)
Definition os_path_join (a b : pystr) : pystr :=
  if startswith_slash b then b
  else if bool_decide (a = []) || endswith_slash a then a ++ b
  else a ++ [slash] ++ b.

(** [s.rstrip("/")] *)
Fixpoint drop_slashes (rev_s : pystr) : pystr :=
  match rev_s with
  | c :: r => if (c =? slash)%N then drop_slashes r else rev_s
  | [] => []
  end.

(** [p[:p.rfind("/") + 1]], computed on the reversed path. *)
Fixpoint rev_head (rev_p : pystr) : pystr :=
  match rev_p with
  | c :: r => if (c =? slash)%N then rev_p else rev_head r
  | [] => []
  end.

(** [os.path.dirname(p)] *)
Definition os_path_dirname (p : pystr) : pystr :=
  let head := rev_head (reverse p) in
  match drop_slashes head with
  | [] => reverse head
  | stripped => reverse stripped
  end.

(** [os.makedirs(p, exist_ok=True)]: the empty path raises; creating any
    other directory is taken to succeed. *)
Definition os_makedirs (p : pystr) : res unit :=
  match p with
  | [] => Raise FileNotFoundError
  | _ => Ok tt
  end.

(** ** TypeRegistry: [TYPE_META] *)

Record TypeMeta := Meta { meta_type : pystr; meta_emoji : pystr; meta_ext : pystr }.

Definition TYPE_META : list (pystr * TypeMeta) :=
  [ (py "Texture2D",     Meta (py "texture")  [128444%N] (py "png"));
    (py "Sprite",        Meta (py "texture")  [128444%N] (py "png"));
    (py "AudioClip",     Meta (py "audio")    [128266%N] (py "wav"));
    (py "Mesh",          Meta (py "mesh")     [129482%N] (py "obj"));
    (py "TextAsset",     Meta (py "text")     [128196%N] (py "txt"));
    (py "MonoBehaviour", Meta (py "script")   [128220%N] (py "json"));
    (py "Font",          Meta (py "font")     [128292%N] (py "ttf"));
    (py "Shader",        Meta (py "shader")   [10024%N]  (py "txt"));
    (py "Material",      Meta (py "material") [127912%N] (py "mat"));
    (py "AnimationClip", Meta (py "anim")     [127916%N] (py "anim"));
    (py "GameObject",    Meta (py "prefab")   [129513%N] (py "json")) ].

(** [d.get(key)] on a dict written as its item list, first match. *)
Fixpoint dict_get {V} (d : list (pystr * V)) (key : pystr) : option V :=
  match d with
  | [] => None
  | (k, v) :: d' => if decide (k = key) then Some v else dict_get d' key
  end.

(** ** Key-value trees and their JSON text *)

(** The tree [obj.parse_as_dict()] returns.  A float is identified by the
    text [repr] gives for it; [VOther] is a leaf [json] cannot serialise,
    identified by the text [str] gives for it, which is also the text
    [repr] gives for it (as for [bytes] and for objects that define one of
    the two only). *)
Inductive pyval :=
| VNone
| VBool (b : bool)
| VInt (n : Z)
| VFloat (repr : pystr)
| VStr (s : pystr)
| VList (items : list pyval)
| VDict (items : list (pystr * pyval))
| VOther (text : pystr).

Definition hex_digit (d : N) : N :=
  (if d <? 10 then 48 + d else 87 + d)%N.

(** One character inside a JSON string with [ensure_ascii=False]. *)
Definition json_escape_char (c : N) : pystr :=
  (if c =? 34 then py "\"  ++ [34]
   else if c =? 92 then py "\\"
   else if c =? 10 then py "\n"
   else if c =? 13 then py "\r"
   else if c =? 9 then py "\t"
   else if c =? 8 then py "\b"
   else if c =? 12 then py "\f"
   else if c <? 32 then py "\u00" ++ [hex_digit (c / 16); hex_digit (c mod 16)]
   else [c])%N.

Definition json_string (s : pystr) : pystr :=
  [34%N] ++ (s ≫= json_escape_char) ++ [34%N].

Definition json_float (repr : pystr) : pystr :=
  if decide (repr = py "nan") then py "NaN"
  else if decide (repr = py "inf") then py "Infinity"
  else if decide (repr = py "-inf") then py "-Infinity"
  else repr.

(** A line break followed by the indentation of nesting level [lvl]. *)
Definition newline_indent (lvl : nat) : pystr :=
  nl ++ mjoin (replicate lvl (py "  ")).

(** [json.dumps(v, indent=2, ensure_ascii=False, default=str)] at
    nesting level [lvl]. *)
Fixpoint json_encode (lvl : nat) (v : pyval) : pystr :=
  match v with
  | VNone => py "null"
  | VBool true => py "true"
  | VBool false => py "false"
  | VInt n => str_int n
  | VFloat r => json_float r
  | VStr s => json_string s
  | VOther t => json_string t
  | VList [] => py "[]"
  | VList items =>
      py "[" ++ newline_indent (S lvl)
      ++ join (py "," ++ newline_indent (S lvl)) (map (json_encode (S lvl)) items)
      ++ newline_indent lvl ++ py "]"
  | VDict [] => py "{}"
  | VDict items =>
      py "{" ++ newline_indent (S lvl)
      ++ join (py "," ++ newline_indent (S lvl))
           (map (fun kv => json_string (fst kv) ++ py ": " ++ json_encode (S lvl) (snd kv)) items)
      ++ newline_indent lvl ++ py "}"
  end.

Definition json_dumps (v : pyval) : pystr := json_encode 0 v.

(** ** Human-readable sizes: [fmt_bytes] *)

(** The integer nearest to [p / q] for [q > 0], ties to the even one. *)
Definition round_half_even (p q : Z) : Z :=
  let d := p / q in
  let r := p mod q in
  if 2 * r <? q then d
  else if q <? 2 * r then d + 1
  else if Z.even d then d else d + 1.

(** A finite binary float, [mant * 2 ^ expo].  The exponent range of
    binary64 is not modelled: [int / int] raises [OverflowError] only for
    quotients from [2 ^ 1024] on. *)
Record pyfloat := Float { mant : Z; expo : Z }.

(** [a / 2 ** s] for ints [a >= 0]: the quotient rounded to 53 bits. *)
Definition true_div_pow2 (a s : Z) : pyfloat :=
  let k := Z.log2 a + 1 - 53 in
  if k <=? 0 then Float a (- s)
  else Float (round_half_even a (2 ^ k)) (k - s).

(** The value of [x] in tenths, rounded to an integer, ties to even. *)
Definition tenths (x : pyfloat) : Z :=
  if 0 <=? expo x then mant x * 2 ^ expo x * 10
  else round_half_even (mant x * 10) (2 ^ (- expo x)).

(** A count of tenths [t >= 0] written with one decimal. *)
Definition one_decimal (t : Z) : pystr :=
  str_int (t / 10) ++ py "." ++ str_int (t mod 10).

(** [f"{x:.1f}"] for [x >= 0] *)
Definition format_1f (x : pyfloat) : pystr := one_decimal (tenths x).

Definition fmt_bytes (b : Z) : pystr :=
  if b <? 1024 then str_int b ++ py " B"
  else if b <? 1024 ^ 2 then format_1f (true_div_pow2 b 10) ++ py " KB"
  else format_1f (true_div_pow2 b 20) ++ py " MB".

(** ** Objects of the AssetSource *)

(** A decoded image; [img.save(path)] writes a PNG file, the 8-byte PNG
    signature followed by the chunk stream, or raises. *)
Record Image := { png_chunks : res bytes }.

Definition png_signature : bytes := [137; 80; 78; 71; 13; 10; 26; 10]%N.

Definition image_save (img : Image) : res bytes :=
  chunks ← png_chunks img; mret (png_signature ++ chunks).

(** The payload of a TextAsset. *)
Inductive Script :=
| ScriptBytes (b : bytes)
| ScriptStr (s : pystr).

(** The typed payload [obj.parse_as_object()] returns; each attribute
    access may raise.  [m_Name] is [Ok None] when the attribute is absent
    or [None]; [image] and [m_Script] are [Ok None] for [None]. *)
Record Payload := {
  m_Name : res (option pystr);
  image : res (option Image);
  samples : res (list (pystr * bytes));
  m_Script : res (option Script);
}.

(** One object of [env.objects].  [parse_as_dict] returns a dict, given
    by its items.  [assets_file_name] is [None] when [obj.assets_file] has
    no attribute [name]. *)
Record ObjectRecord := {
  type_name : pystr;
  parse_as_object : res Payload;
  parse_as_dict : res (list (pystr * pyval));
  assets_file_name : option pystr;
}.

(** What [UnityPy.load] returns. *)
Record Environment := { objects : res (list ObjectRecord) }.

(** ** AssetEntry, Stats and Manifest *)

Module Asset.
Record t := Make {
  name : pystr;
  filename : pystr;
  ext : pystr;
  type : pystr;
  emoji : pystr;
  unityType : pystr;
  relativePath : pystr;
  sizeBytes : Z;
  size : pystr;
  bundle : pystr;
}.
End Asset.

Module Stats.
Record t := Make {
  total : Z;
  byType : gmap pystr Z;
  totalSize : pystr;
  bundleCount : Z;
}.
End Stats.

Inductive Manifest :=
| ManifestOk (assets : list Asset.t) (stats : Stats.t)
| ManifestError (error : pystr) (trace : pystr).

Definition manifest_ok (m : Manifest) : bool :=
  match m with
  | ManifestOk _ _ => true
  | ManifestError _ _ => false
  end.

Section Extractor.

(** ** The interpreter *)

(** [str.isprintable] outside ASCII is decided by the Unicode character
    database of the interpreter, and [x + 1] on a float by its float
    arithmetic: for the float whose [repr] is [r], [float_add_one r] is the
    [repr] of [x + 1].  Both are parameters of the development. *)
Variable unicode_isprintable : N → bool.
Variable float_add_one : pystr → pystr.

(** The [n] lowest hexadecimal digits of [c], most significant first. *)
Fixpoint hex_digits (n : nat) (c : N) : pystr :=
  match n with
  | O => []
  | S m => hex_digits m (c / 16) ++ [hex_digit (c mod 16)]
  end.

(** One character of [repr(s)] for a [str] written between [quote]s. *)
Definition repr_char (quote c : N) : pystr :=
  (if (c =? quote) || (c =? 92) then [92; c]
   else if c =? 9 then py "\t"
   else if c =? 10 then py "\n"
   else if c =? 13 then py "\r"
   else if (c <? 32) || (c =? 127) then py "\x" ++ hex_digits 2 c
   else if c <? 127 then [c]
   else if unicode_isprintable c then [c]
   else if c <? 256 then py "\x" ++ hex_digits 2 c
   else if c <? 65536 then py "\u" ++ hex_digits 4 c
   else py "\U" ++ hex_digits 8 c)%N.

(** [repr(s)] for a [str]: single quotes, unless [s] holds a single quote
    and no double quote. *)
Definition repr_str (s : pystr) : pystr :=
  let quote :=
    if bool_decide (39%N ∈ s) && negb (bool_decide (34%N ∈ s)) then 34%N else 39%N in
  [quote] ++ (s ≫= repr_char quote) ++ [quote].

(** [repr(v)] *)
Fixpoint py_repr (v : pyval) : pystr :=
  match v with
  | VNone => py "None"
  | VBool true => py "True"
  | VBool false => py "False"
  | VInt n => str_int n
  | VFloat r => r
  | VStr s => repr_str s
  | VOther t => t
  | VList items => py "[" ++ join (py ", ") (map py_repr items) ++ py "]"
  | VDict items =>
      py "{"
      ++ join (py ", ")
           (map (fun kv => repr_str (fst kv) ++ py ": " ++ py_repr (snd kv)) items)
      ++ py "}"
  end.

(** ** Exporters *)

(** Each exporter returns the bytes it left in the destination file when
    it ran to the statement [wrote = True], [None] when it finished
    without reaching it, and [Raise] when it raised. *)

(** Textures and sprites, lines 87-91. *)
Definition export_image (data : Payload) : res (option bytes) :=
  img ← image data;
  match img with
  | Some img => content ← image_save img; mret (Some content)
  | None => mret None
  end.

(** The first truthy value of [data.samples.items()]. *)
Definition first_sample (items : list (pystr * bytes)) : option bytes :=
  snd <$> find (fun kv => negb (bool_decide (snd kv = []))) items.

(** Audio clips, lines 98-103. *)
Definition export_audio (data : Payload) : res (option bytes) :=
  items ← samples data; mret (first_sample items).

(** Text assets, lines 110-115. *)
Definition export_text (data : Payload) : res (option bytes) :=
  script ← m_Script data;
  match script with
  | None | Some (ScriptBytes []) | Some (ScriptStr []) => mret None
  | Some (ScriptBytes content) => mret (Some content)
  | Some (ScriptStr s) => mret (Some (encode_utf8_replace s))
  end.

(** The typetree dumped as JSON, lines 122-125 and 149-152. *)
Definition export_json (obj : ObjectRecord) : res (option bytes) :=
  d ← parse_as_dict obj;
  content ← encode_utf8 (json_dumps (VDict d));
  mret (Some content).

(** [d.get(key, [])] *)
Definition tree_get (d : list (pystr * pyval)) (key : pystr) : pyval :=
  default (VList []) (dict_get d key).

(** The sequence that [len(a)] and [a[i]] see.  Array fields of a typetree
    are lists; a string is the sequence of its characters; a non-empty dict
    has a length but no integer key; the other kinds have no length. *)
Definition as_sequence (a : pyval) : res (list pyval) :=
  match a with
  | VList items => mret items
  | VStr s => mret ((fun c => VStr [c]) <$> s)
  | VDict [] => mret []
  | VDict _ => Raise KeyError
  | _ => Raise TypeError
  end.

(** [f"{x}"] for an array item: [str(x)], which for a list or a dict is
    its [repr]. *)
Definition format_item (x : pyval) : res pystr :=
  match x with
  | VNone => mret (py "None")
  | VBool true => mret (py "True")
  | VBool false => mret (py "False")
  | VInt n => mret (str_int n)
  | VFloat r => mret r
  | VStr s => mret s
  | VOther t => mret t
  | VList _ | VDict _ => mret (py_repr x)
  end.

(** [x + 1] for an index: an int, a bool taken as an int, or a float; the
    other kinds do not support [+] with an int. *)
Definition add_one (x : pyval) : res pyval :=
  match x with
  | VInt n => mret (VInt (n + 1))
  | VBool b => mret (VInt ((if b then 1 else 0) + 1))
  | VFloat r => mret (VFloat (float_add_one r))
  | _ => Raise TypeError
  end.

Definition vertex_line (x y z : pyval) : res pystr :=
  sx ← format_item x; sy ← format_item y; sz ← format_item z;
  mret (py "v " ++ sx ++ py " " ++ sy ++ py " " ++ sz ++ nl).

Definition face_line (a b c : pyval) : res pystr :=
  a1 ← add_one a; sa ← format_item a1;
  b1 ← add_one b; sb ← format_item b1;
  c1 ← add_one c; sc ← format_item c1;
  mret (py "f " ++ sa ++ py " " ++ sb ++ py " " ++ sc ++ nl).

(** [for i in range(0, len(a), 3): f.write(line(a[i], a[i+1], a[i+2]))]:
    the text written, or [IndexError] when the last group is short. *)
Fixpoint write_triples (line : pyval → pyval → pyval → res pystr)
    (a : list pyval) : res pystr :=
  match a with
  | [] => mret []
  | x :: y :: z :: rest =>
      l ← line x y z; ls ← write_triples line rest; mret (l ++ ls)
  | _ => Raise IndexError
  end.

Definition mesh_header (name : pystr) : pystr :=
  py "# Exported by UnityRip" ++ nl ++ py "# Mesh: " ++ name ++ nl.

(** The text of the OBJ file, lines 135-141. *)
Definition mesh_text (name : pystr) (mesh_data : list (pystr * pyval)) : res pystr :=
  verts ← as_sequence (tree_get mesh_data (py "m_Vertices"));
  vlines ← write_triples vertex_line verts;
  indices ← as_sequence (tree_get mesh_data (py "m_IndexBuffer"));
  flines ← write_triples face_line indices;
  mret (mesh_header name ++ vlines ++ flines).

(** Meshes, lines 133-142; the file is opened in text mode, and the
    encoding of the locale is taken to be UTF-8. *)
Definition export_mesh (name : pystr) (obj : ObjectRecord) : res (option bytes) :=
  mesh_data ← parse_as_dict obj;
  text ← mesh_text name mesh_data;
  content ← encode_utf8 text;
  mret (Some content).

(** The dispatch of lines 83-154: [Some content] when [wrote] ends up
    [True], with the bytes of the file at [abs_path]. *)
Definition export (name : pystr) (data : Payload) (obj : ObjectRecord) : option bytes :=
  let type_name := type_name obj in
  if bool_decide (type_name ∈ [py "Texture2D"; py "Sprite"]) then
    try_pass (export_image data)
  else if bool_decide (type_name = py "AudioClip") then
    try_pass (export_audio data)
  else if bool_decide (type_name = py "TextAsset") then
    try_pass (export_text data)
  else if bool_decide (type_name ∈ [py "MonoBehaviour"; py "GameObject"]) then
    try_pass (export_json obj)
  else if bool_decide (type_name = py "Mesh") then
    try_pass (export_mesh name obj)
  else
    try_pass (export_json obj).

(** ** NameDeduplicator, lines 71-76 *)

Definition deduplicate (name : pystr) (seen_names : gmap pystr Z)
  : pystr * gmap pystr Z :=
  match seen_names !! name with
  | Some n => (name ++ py "_" ++ str_int (n + 1), <[name := n + 1]> seen_names)
  | None => (name, <[name := 0]> seen_names)
  end.

(** ** StatsAggregator: [build_stats] *)

(** One iteration of the loop of lines 185-187 on [(by_type, total)]. *)
Definition stats_step (acc : gmap pystr Z * Z) (a : Asset.t) : gmap pystr Z * Z :=
  (<[Asset.type a := default 0 (acc.1 !! Asset.type a) + 1]> (acc.1),
   acc.2 + Asset.sizeBytes a).

Definition build_stats (assets : list Asset.t) : Stats.t :=
  let '(by_type, total) := foldl stats_step (∅, 0) assets in
  let bundles := size (list_to_set (Asset.bundle <$> assets) : gset pystr) in
  {| Stats.total := Z.of_nat (length assets);
     Stats.byType := by_type;
     Stats.totalSize := fmt_bytes total;
     Stats.bundleCount := Z.of_nat bundles |}.

(** [traceback.format_exc()] for the exception being handled. *)
Definition format_exc (e : exn) : pystr :=
  py "Traceback (most recent call last):" ++ nl ++ exc_tb e
  ++ exc_type e ++ (if decide (exc_msg e = []) then [] else py ": " ++ exc_msg e) ++ nl.

(** ** NameSanitizer: [safe_name] *)

Definition ascii_isalnum (c : N) : bool :=
  (((48 <=? c) && (c <=? 57)) || ((65 <=? c) && (c <=? 90))
   || ((97 <=? c) && (c <=? 122)))%N.

(** The characters [in "._- "]. *)
Definition in_extra (c : N) : bool :=
  bool_decide (c ∈ py "._- ").

(** [str.isspace] for one character, the set [str.strip()] removes. *)
Definition isspace (c : N) : bool :=
  (((9 <=? c) && (c <=? 13)) || ((28 <=? c) && (c <=? 32))
   || (c =? 133) || (c =? 160) || (c =? 5760)
   || ((8192 <=? c) && (c <=? 8202))
   || (c =? 8232) || (c =? 8233) || (c =? 8239) || (c =? 8287)
   || (c =? 12288))%N.

Fixpoint lstrip (s : pystr) : pystr :=
  match s with
  | c :: s' => if isspace c then lstrip s' else s
  | [] => []
  end.

Definition rstrip (s : pystr) : pystr := reverse (lstrip (reverse s)).

Definition strip (s : pystr) : pystr := rstrip (lstrip s).

(** ** Objects used in the concrete runs *)

(** What reading an attribute the payload does not have raises. *)
Definition AttributeError : exn :=
  Exn (py "AttributeError") (py "no such attribute") [].

(** A texture-like object of type [tag] named [nm] whose image encodes to
    [chunks]. *)
Definition image_object (tag nm : string) (chunks : bytes) : ObjectRecord :=
  {| type_name := py tag;
     parse_as_object :=
       Ok {| m_Name := Ok (Some (py nm));
             image := Ok (Some {| png_chunks := Ok chunks |});
             samples := Raise AttributeError;
             m_Script := Raise AttributeError |};
     parse_as_dict := Ok [(py "m_Name", VStr (py nm))];
     assets_file_name := Some (py "sharedassets0.assets") |}.

(** A texture whose record is corrupt: parsing it raises. *)
Definition corrupt_texture : ObjectRecord :=
  {| type_name := py "Texture2D";
     parse_as_object := Raise (Exn (py "ValueError") (py "truncated record") []);
     parse_as_dict := Raise (Exn (py "ValueError") (py "truncated record") []);
     assets_file_name := Some (py "sharedassets0.assets") |}.

(** A texture named [nm] whose image cannot be encoded: [img.save]
    raises. *)
Definition unsaveable_texture (nm : string) : ObjectRecord :=
  {| type_name := py "Texture2D";
     parse_as_object :=
       Ok {| m_Name := Ok (Some (py nm));
             image :=
               Ok (Some {| png_chunks :=
                             Raise (Exn (py "OSError")
                                      (py "cannot write mode F as PNG") []) |});
             samples := Raise AttributeError;
             m_Script := Raise AttributeError |};
     parse_as_dict := Ok [(py "m_Name", VStr (py nm))];
     assets_file_name := Some (py "sharedassets0.assets") |}.

(** A texture without pixel data: [data.image] is [None]. *)
Definition blank_texture : ObjectRecord :=
  {| type_name := py "Texture2D";
     parse_as_object :=
       Ok {| m_Name := Ok (Some (py "Blank"));
             image := Ok None;
             samples := Raise AttributeError;
             m_Script := Raise AttributeError |};
     parse_as_dict := Ok [(py "m_Name", VStr (py "Blank"))];
     assets_file_name := Some (py "sharedassets0.assets") |}.

(** An audio clip named [nm] with one sample. *)
Definition audio_object (nm : string) (clip : bytes) : ObjectRecord :=
  {| type_name := py "AudioClip";
     parse_as_object :=
       Ok {| m_Name := Ok (Some (py nm));
             image := Raise AttributeError;
             samples := Ok [(py (nm ++ ".wav"), clip)];
             m_Script := Raise AttributeError |};
     parse_as_dict := Ok [(py "m_Name", VStr (py nm))];
     assets_file_name := None |}.

(** A mesh named [nm] with the given tree. *)
Definition mesh_object (nm : string) (tree : list (pystr * pyval)) : ObjectRecord :=
  {| type_name := py "Mesh";
     parse_as_object :=
       Ok {| m_Name := Ok (Some (py nm));
             image := Raise AttributeError;
             samples := Raise AttributeError;
             m_Script := Raise AttributeError |};
     parse_as_dict := Ok tree;
     assets_file_name := None |}.

(** One triangle: three vertices and the index buffer [0, 1, 2]. *)
Definition triangle_tree : list (pystr * pyval) :=
  [ (py "m_Name", VStr (py "Tri"));
    (py "m_Vertices",
     VList [VFloat (py "0.0"); VFloat (py "0.0"); VFloat (py "0.0");
            VFloat (py "1.0"); VFloat (py "0.0"); VFloat (py "0.0");
            VFloat (py "0.0"); VFloat (py "1.5"); VInt 2]);
    (py "m_IndexBuffer", VList [VInt 0; VInt 1; VInt 2]) ].

Definition icon : ObjectRecord := image_object "Texture2D" "Icon!" [1%N; 2%N; 3%N].
Definition hit : ObjectRecord := audio_object "Hit" [82%N; 73%N; 70%N; 70%N].

Definition logo : ObjectRecord := image_object "Texture2D" "Logo" [1%N; 2%N; 3%N].

Definition texture_a : ObjectRecord := image_object "Texture2D" "a" [1%N; 2%N; 3%N].

(** A mesh whose vertex array holds a list, [None] and [True], and whose
    indices are floats. *)
Definition odd_mesh : ObjectRecord :=
  mesh_object "Odd"
    [(py "m_Vertices", VList [VList [VInt 1; VInt 2]; VNone; VBool true]);
     (py "m_IndexBuffer",
      VList [VFloat (py "0.0"); VFloat (py "1.0"); VFloat (py "2.0")])].

(** A mesh whose vertex array has four numbers. *)
Definition ragged_mesh : ObjectRecord :=
  mesh_object "Bad"
    [(py "m_Name", VStr (py "Bad"));
     (py "m_Vertices", VList [VInt 0; VInt 1; VInt 2; VInt 3])].

(** Two entries, as the pipeline would append them. *)
Definition entry_logo : Asset.t :=
  {| Asset.name := py "Logo"; Asset.filename := py "Logo.png"; Asset.ext := py "png";
     Asset.type := py "texture"; Asset.emoji := [128444%N];
     Asset.unityType := py "Texture2D"; Asset.relativePath := py "texture/Logo.png";
     Asset.sizeBytes := 11; Asset.size := py "11 B";
     Asset.bundle := py "sharedassets0.assets" |}.

Definition entry_hit : Asset.t :=
  {| Asset.name := py "Hit"; Asset.filename := py "Hit.wav"; Asset.ext := py "wav";
     Asset.type := py "audio"; Asset.emoji := [128266%N];
     Asset.unityType := py "AudioClip"; Asset.relativePath := py "audio/Hit.wav";
     Asset.sizeBytes := 4; Asset.size := py "4 B";
     Asset.bundle := py "unknown" |}.

(** An interpreter table that holds no character outside ASCII: as the
    table of [str.isalnum], no alphanumeric character outside ASCII; as
    the table of [str.isprintable], no printable one. *)
Definition ascii_only : N → bool := fun _ => false.

(** Decimal digits read as a number, most significant first. *)
Fixpoint read_digits (acc : N) (s : pystr) : option N :=
  match s with
  | [] => Some acc
  | c :: rest =>
      if ((48 <=? c) && (c <=? 57))%N
      then read_digits (10 * acc + (c - 48))%N rest
      else None
  end.

(** Float addition of one on the floats whose [repr] is a whole number of
    at most fifteen digits followed by [.0], where the sum is exact.  The
    other texts are left as they are; no concrete run below holds one. *)
Definition whole_add_one (r : pystr) : pystr :=
  let '(negative, body) :=
    match r with
    | 45%N :: body => (true, body)
    | _ => (false, r)
    end in
  match reverse body with
  | 48%N :: 46%N :: (_ :: _) as digits =>
      match read_digits 0 (reverse digits) with
      | Some n =>
          if (n <? 10 ^ 15)%N
          then str_int ((if negative then - Z.of_N n else Z.of_N n) + 1) ++ py ".0"
          else r
      | None => r
      end
  | _ => r
  end.

(** An AssetSource that yields [objs] for every archive. *)

Definition source_of (objs : list ObjectRecord) : pystr → res Environment :=
  fun _ => Ok {| objects := Ok objs |}.

(** An AssetSource that cannot open the archive and raises [e]. *)
Definition failing_source (e : exn) : pystr → res Environment :=
  fun _ => Raise e.

(** [str.isalnum] outside ASCII is decided by the Unicode character
    database of the interpreter; it is a parameter of the development. *)
Variable unicode_isalnum : N → bool.

Definition isalnum (c : N) : bool :=
  if (c <? 128)%N then ascii_isalnum c else unicode_isalnum c.

Definition sanitize_char (c : N) : N :=
  if isalnum c || in_extra c then c else 95%N.

(** [name] is [None] for Python's [None]. *)
Definition safe_name (name : option pystr) : pystr :=
  match name with
  | None => py "unnamed"
  | Some [] => py "unnamed"
  | Some s => strip (sanitize_char <$> s)
  end.

(** ** ExtractionPipeline: [extract_apk] *)

(** The two variables the loop of [extract_apk] updates. *)
Record RunState := { assets : list Asset.t; seen_names : gmap pystr Z }.

(** [x or type_name] *)
Definition or_else (x : option pystr) (type_name : pystr) : option pystr :=
  match x with
  | None | Some [] => Some type_name
  | Some s => Some s
  end.

(** Lines 68-69. *)
Definition parse_and_name (obj : ObjectRecord) : res (Payload * pystr) :=
  data ← parse_as_object obj;
  raw ← m_Name data;
  mret (data, safe_name (or_else raw (type_name obj))).

(** The entry of lines 158-169. *)
Definition make_entry (obj : ObjectRecord) (meta : TypeMeta)
    (name rel_path : pystr) (content : bytes) : Asset.t :=
  let size := Z.of_nat (length content) in
  {| Asset.name := name;
     Asset.filename := name ++ py "." ++ meta_ext meta;
     Asset.ext := meta_ext meta;
     Asset.type := meta_type meta;
     Asset.emoji := meta_emoji meta;
     Asset.unityType := type_name obj;
     Asset.relativePath := rel_path;
     Asset.sizeBytes := size;
     Asset.size := fmt_bytes size;
     Asset.bundle := default (py "unknown") (assets_file_name obj) |}.

(** One iteration of the loop, lines 62-173. *)
Definition process_object (out_dir : pystr) (obj : ObjectRecord) (st : RunState) : RunState :=
  match dict_get TYPE_META (type_name obj) with
  | None => st
  | Some meta =>
      match parse_and_name obj with
      | Raise _ => st
      | Ok (data, name) =>
          let '(name, seen) := deduplicate name (seen_names st) in
          let ext := meta_ext meta in
          let rel_path := os_path_join (meta_type meta) (name ++ py "." ++ ext) in
          let abs_path := os_path_join out_dir rel_path in
          let wrote :=
            _ ← os_makedirs (os_path_dirname abs_path);
            mret (export name data obj) in
          match wrote with
          | Ok (Some content) =>
              {| assets := assets st ++ [make_entry obj meta name rel_path content];
                 seen_names := seen |}
          | Ok None | Raise _ => {| assets := assets st; seen_names := seen |}
          end
      end
  end.

Definition run_loop (out_dir : pystr) (objs : list ObjectRecord) (st : RunState) : RunState :=
  foldl (fun st obj => process_object out_dir obj st) st objs.

Definition initial : RunState := {| assets := []; seen_names := ∅ |}.

Section Source.

(** The AssetSource: [UnityPy.load]. *)
Variable UnityPy_load : pystr → res Environment.

Definition extract_apk (apk_path out_dir : pystr) : res (list Asset.t) :=
  _ ← os_makedirs out_dir;
  env ← UnityPy_load apk_path;
  objs ← objects env;
  mret (assets (run_loop out_dir objs initial)).

(** ** Entry point, lines 196-217 *)

(** What a run leaves behind: the manifest written, if any, and the exit
    code of the process. *)
Record Outcome := { manifest : option Manifest; exit_code : Z }.

(** Lines 205-210. *)
Definition run_result (apk_path out_dir : pystr) : Manifest :=
  match extract_apk apk_path out_dir with
  | Ok assets => ManifestOk assets (build_stats assets)
  | Raise e => ManifestError (exc_msg e) (format_exc e)
  end.

(** [argv] is [sys.argv].  An exception that nothing catches ends the
    process with exit code 1. *)
Definition main (argv : list pystr) : Outcome :=
  match argv with
  | _ :: apk_path :: out_dir :: manifest_path :: _ =>
      let result := run_result apk_path out_dir in
      match os_makedirs (os_path_dirname manifest_path) with
      | Raise _ => {| manifest := None; exit_code := 1 |}
      | Ok _ =>
          {| manifest := Some result;
             exit_code := if manifest_ok result then 0 else 1 |}
      end
  | _ => {| manifest := None; exit_code := 1 |}
  end.

End Source.

(** ** Vocabulary of the properties *)

(** The characters a sanitized name may hold. *)
Definition allowed (c : N) : bool := isalnum c || in_extra c.

(** [r] is [s] without its leading and trailing whitespace. *)
Definition is_trim_of (s r : pystr) : Prop :=
  ∃ pre post, s = pre ++ r ++ post
    ∧ Forall (fun c => isspace c = true) pre
    ∧ Forall (fun c => isspace c = true) post
    ∧ (∀ c, head r = Some c → isspace c = false)
    ∧ (∀ c, last r = Some c → isspace c = false).

(** The name handed out for the [k]-th request of [base], counted from 0. *)
Definition suffixed (base : pystr) (k : Z) : pystr :=
  if decide (k = 0) then base else base ++ py "_" ++ str_int k.

(** The deduplicator called once per name of [calls], in order, on one
    registry: the names it returns and the registry it leaves. *)
Fixpoint dedup_calls (calls : list pystr) (seen : gmap pystr Z)
  : list pystr * gmap pystr Z :=
  match calls with
  | [] => ([], seen)
  | c :: rest =>
      let '(r, seen) := deduplicate c seen in
      let '(rs, seen) := dedup_calls rest seen in
      (r :: rs, seen)
  end.

(** The results of [dedup_calls] for the calls that asked for [base]. *)
Definition results_for (base : pystr) (calls results : list pystr) : list pystr :=
  snd <$> filter (fun cr => cr.1 = base) (zip calls results).

(** [base] was requested [k] times so far. *)
Definition requested (seen : gmap pystr Z) (base : pystr) (k : Z) : Prop :=
  0 ≤ k ∧ seen !! base = if decide (k = 0) then None else Some (k - 1).

(** [base], [base_1], ..., the first [n] of them. *)
Definition dedup_sequence (base : pystr) (n : nat) : list pystr :=
  match n with
  | O => []
  | S m => base :: ((fun k => base ++ py "_" ++ str_int k) <$> seqZ 1 (Z.of_nat m))
  end.

(** The sum of the values of a dict of counts. *)
Definition dict_sum (d : gmap pystr Z) : Z :=
  map_fold (fun _ v acc => v + acc) 0 d.

(** A flat array of triples. *)
Definition flat3 {A} (l : list (A * A * A)) : list A :=
  l ≫= (fun t => [t.1.1; t.1.2; t.2]).

Definition is_number (x : pyval) : bool :=
  match x with
  | VInt _ | VFloat _ => true
  | _ => false
  end.

(** [str(x)] for a number. *)
Definition number_text (x : pyval) : pystr :=
  match x with
  | VInt n => str_int n
  | VFloat r => r
  | _ => []
  end.

(** The line [v x y z] of a vertex. *)
Definition vertex_text (v : pyval * pyval * pyval) : pystr :=
  py "v " ++ number_text v.1.1 ++ py " " ++ number_text v.1.2 ++ py " "
  ++ number_text v.2 ++ nl.

(** The line [f i1+1 i2+1 i3+1] of a triangle with zero-based indices. *)
Definition face_text (t : Z * Z * Z) : pystr :=
  py "f " ++ str_int (t.1.1 + 1) ++ py " " ++ str_int (t.1.2 + 1) ++ py " "
  ++ str_int (t.2 + 1) ++ nl.

(** The field [key] of the tree holds the array [a], or is missing and
    [a] is empty. *)
Definition array_field (items : list (pystr * pyval)) (key : pystr)
    (a : list pyval) : Prop :=
  dict_get items key = Some (VList a) ∨ (dict_get items key = None ∧ a = []).

(** The fields of an entry agree with each other and with the table. *)
Definition entry_consistent (e : Asset.t) : Prop :=
  Asset.filename e = Asset.name e ++ py "." ++ Asset.ext e
  ∧ Asset.relativePath e = os_path_join (Asset.type e) (Asset.filename e)
  ∧ Asset.relativePath e = Asset.type e ++ py "/" ++ Asset.filename e
  ∧ ∃ meta, dict_get TYPE_META (Asset.unityType e) = Some meta
      ∧ Asset.ext e = meta_ext meta ∧ Asset.type e = meta_type meta.

(** Processing [obj] in state [st] raises while parsing or naming it. *)
Definition raises_before_export (obj : ObjectRecord) : Prop :=
  ∃ e, parse_and_name obj = Raise e.

(** Processing [obj] in state [st] gets a name and then the exporter
    raises, or ends without having written. *)
Definition export_fails (obj : ObjectRecord) (st : RunState) : Prop :=
  ∃ data base, parse_and_name obj = Ok (data, base)
    ∧ export (deduplicate base (seen_names st)).1 data obj = None.

(** The sanitized base name the loop computes for [obj]: [None] when the
    type is not in the table or when parsing or naming raises. *)
Definition base_of (obj : ObjectRecord) : option pystr :=
  match dict_get TYPE_META (type_name obj) with
  | None => None
  | Some _ =>
      match parse_and_name obj with
      | Ok (_, base) => Some base
      | Raise _ => None
      end
  end.

(** The base names of a sequence of objects, in order. *)
Definition bases (objs : list ObjectRecord) : list pystr := omap base_of objs.

(** No name of [calls] is another name of [calls] followed by an
    underscore and more characters; a name that is another one followed
    by an underscore alone is not excluded. *)
Definition no_underscore_extension (calls : list pystr) : Prop :=
  ∀ b1 b2 rest,
    b1 ∈ calls → b2 ∈ calls → rest ≠ [] → b1 ≠ b2 ++ py "_" ++ rest.

(** The characters of a decimal numeral: the digits and the sign. *)
Definition numeral_char (c : N) : bool :=
  (((48 <=? c) && (c <=? 57)) || (c =? 45))%N.

(** What an entry keeps of the object it was exported from. *)
Definition entry_origin (e : Asset.t) : pystr * pystr :=
  (Asset.unityType e, Asset.bundle e).

Definition object_origin (obj : ObjectRecord) : pystr * pystr :=
  (type_name obj, default (py "unknown") (assets_file_name obj)).

(** The sum of the [sizeBytes] of a list of entries. *)
Definition total_bytes (entries : list Asset.t) : Z :=
  foldr Z.add 0 (Asset.sizeBytes <$> entries).

(** The number of entries of category [c]. *)
Definition count_of_type (c : pystr) (entries : list Asset.t) : nat :=
  length (filter (fun a => Asset.type a = c) entries).

(** [obj] has a type of the table, parses, gets a name, and its exporter
    succeeds under the name the deduplicator hands it from [registry]. *)
Definition exports_in (registry : gmap pystr Z) (obj : ObjectRecord) : Prop :=
  ∃ meta data base,
    dict_get TYPE_META (type_name obj) = Some meta
    ∧ parse_and_name obj = Ok (data, base)
    ∧ is_Some (export (deduplicate base registry).1 data obj).

(** Every object of [objs] is exported when its turn comes in the run
    into [out_dir]: it exports in the registry that the objects before it
    have left. *)
Definition all_export (out_dir : pystr) (objs : list ObjectRecord) : Prop :=
  ∀ pre obj post,
    objs = pre ++ obj :: post →
    exports_in (seen_names (run_loop out_dir pre initial)) obj.

(** *** The pipeline as the specification describes it *)

(** The outcome of one object. *)
Inductive ObjectOutcome :=
| Skipped
| Failed
| Exported (entry : Asset.t).

(** The steps of the specification for one object against [registry]:
    look the type up, else [Skipped]; parse and compute the base name,
    else [Failed]; resolve the final name, which keeps the base name
    counted whatever follows; export to
    [{category}/{finalName}.{extension}], else [Failed]; build the entry.
    The result is the outcome and the registry afterwards. *)
Definition spec_step (registry : gmap pystr Z) (obj : ObjectRecord)
  : ObjectOutcome * gmap pystr Z :=
  match dict_get TYPE_META (type_name obj) with
  | None => (Skipped, registry)
  | Some meta =>
      match parse_and_name obj with
      | Raise _ => (Failed, registry)
      | Ok (data, base) =>
          let '(final, registry) := deduplicate base registry in
          let path := meta_type meta ++ py "/" ++ final ++ py "." ++ meta_ext meta in
          match export final data obj with
          | None => (Failed, registry)
          | Some content =>
              (Exported (make_entry obj meta final path content), registry)
          end
      end
  end.

(** The specification's pipeline over a sequence of objects: one outcome
    per object, in order, and the registry at the end. *)
Fixpoint spec_run (registry : gmap pystr Z) (objs : list ObjectRecord)
  : list ObjectOutcome * gmap pystr Z :=
  match objs with
  | [] => ([], registry)
  | obj :: rest =>
      let '(outcome, registry) := spec_step registry obj in
      let '(outcomes, registry) := spec_run registry rest in
      (outcome :: outcomes, registry)
  end.

(** The entries of the objects that were exported. *)
Definition exported (outcomes : list ObjectOutcome) : list Asset.t :=
  omap (fun o => match o with Exported e => Some e | _ => None end) outcomes.

(** * Properties *)

(** ** Strings *)

#[local] Instance N_of_ascii_inj : Inj (=) (=) N_of_ascii.
Proof.
  intros a b Hab.
  rewrite <- (ascii_N_embedding a), <- (ascii_N_embedding b). by rewrite Hab.
Qed.

Lemma py_inj s t : py s = py t → s = t.
Proof.
  unfold py. intros H%(inj (fmap N_of_ascii)).
  rewrite <- (string_of_list_ascii_of_string s), <- (string_of_list_ascii_of_string t).
  by rewrite H.
Qed.

Lemma str_int_inj m n : str_int m = str_int n → m = n.
Proof. intros H. apply py_inj in H. by apply (inj pretty). Qed.

Lemma pretty_N_char_numeral x : numeral_char (N_of_ascii (pretty_N_char x)) = true.
Proof. unfold pretty_N_char. by repeat case_match. Qed.

Lemma pretty_N_go_numeral x : ∀ s,
  Forall (fun c => numeral_char c = true) (py s) →
  Forall (fun c => numeral_char c = true) (py (pretty_N_go x s)).
Proof.
  induction (N.lt_wf_0 x) as [x _ IH]; intros s Hs.
  assert (x = 0 ∨ 0 < x)%N as [->|Hx] by lia; [by rewrite pretty_N_go_0|].
  rewrite pretty_N_go_step by done. apply IH; [by apply N.div_lt|].
  constructor; [apply pretty_N_char_numeral | exact Hs].
Qed.

Lemma pretty_N_go_length x : ∀ s,
  (String.length s ≤ String.length (pretty_N_go x s))%nat.
Proof.
  induction (N.lt_wf_0 x) as [x _ IH]; intros s.
  assert (x = 0 ∨ 0 < x)%N as [->|Hx] by lia; [by rewrite pretty_N_go_0|].
  rewrite pretty_N_go_step by done.
  etrans; [|apply IH; by apply N.div_lt]. simpl. lia.
Qed.

Lemma pretty_N_numeral (x : N) :
  pretty x ≠ EmptyString ∧ Forall (fun c => numeral_char c = true) (py (pretty x)).
Proof.
  unfold pretty, pretty_N. case_decide as Hx; [split; [done | by repeat constructor]|].
  split; [|apply pretty_N_go_numeral; constructor].
  rewrite pretty_N_go_step by lia. intros Heq.
  pose proof (pretty_N_go_length (x `div` 10)
                (String (pretty_N_char (x `mod` 10)) EmptyString)) as Hlen.
  rewrite Heq in Hlen. simpl in Hlen. lia.
Qed.

(** [str(k)] is not empty and is made of digits and a sign. *)
Lemma str_int_numeral k :
  str_int k ≠ [] ∧ Forall (fun c => numeral_char c = true) (str_int k).
Proof.
  unfold str_int. destruct k as [|p|p]; unfold pretty, pretty_Z.
  - split; [done | by repeat constructor].
  - destruct (pretty_N_numeral (Npos p)) as [Hne Hall]. split; [|done].
    unfold pretty, pretty_positive. destruct (pretty (N.pos p)); done.
  - destruct (pretty_N_numeral (Npos p)) as [Hne Hall]. split; [done|].
    constructor; [done | exact Hall].
Qed.

Lemma str_int_no_underscore k rest : str_int k ≠ py "_" ++ rest.
Proof.
  intros Heq. destruct (str_int_numeral k) as [_ Hall].
  rewrite Heq in Hall. by apply Forall_cons_1 in Hall as [? _].
Qed.

(** ** NameSanitizer *)

Lemma sanitize_char_allowed c : allowed (sanitize_char c) = true.
Proof.
  unfold sanitize_char. destruct (isalnum c || in_extra c) eqn:E; [done|].
  unfold allowed. apply orb_true_r.
Qed.

Lemma lstrip_split s :
  ∃ pre, s = pre ++ lstrip s ∧ Forall (fun c => isspace c = true) pre
    ∧ ∀ c, head (lstrip s) = Some c → isspace c = false.
Proof.
  induction s as [|c s IH]; simpl.
  - exists []. split_and!; [done | constructor | intros ? [=]].
  - destruct (isspace c) eqn:E.
    + destruct IH as (pre & Hs & Hpre & Hhd).
      exists (c :: pre). split_and!; [simpl; congruence | by constructor | done].
    + exists []. split_and!; [done | constructor |]. by intros ? [= <-].
Qed.

Lemma strip_is_trim s : is_trim_of s (strip s).
Proof.
  unfold strip, rstrip.
  destruct (lstrip_split s) as (pre & Hs & Hpre & Hhd).
  destruct (lstrip_split (reverse (lstrip s))) as (q & Hr & Hq & Hlast).
  set (r := lstrip (reverse (lstrip s))) in *.
  assert (Hmid : lstrip s = reverse r ++ reverse q).
  { rewrite <- reverse_app, <- Hr. by rewrite reverse_involutive. }
  exists pre, (reverse q). split_and!.
  - by rewrite <- Hmid.
  - done.
  - by apply Forall_reverse.
  - intros c Hc. apply Hhd. rewrite Hmid.
    destruct (reverse r); [done | by simplify_eq/=].
  - intros c Hc. apply Hlast. by rewrite last_reverse in Hc.
Qed.

Lemma is_trim_of_Forall (P : N → Prop) s r :
  is_trim_of s r → Forall P s → Forall P r.
Proof.
  intros (pre & post & -> & _) H.
  apply Forall_app in H as [_ H]. by apply Forall_app in H as [H _].
Qed.

(** The parts of the contract of [safe_name] that hold for every input:
    the fallback for an absent or empty name; otherwise the characters are
    replaced one by one and the result is trimmed; and only allowed
    characters remain. *)
Lemma safe_name_contract (name : option pystr) :
  (name = None ∨ name = Some [] → safe_name name = py "unnamed")
  ∧ (∀ s, name = Some s → s ≠ [] →
       is_trim_of (sanitize_char <$> s) (safe_name name))
  ∧ Forall (fun c => allowed c = true) (safe_name name).
Proof.
  split_and!.
  - by intros [-> | ->].
  - intros s -> Hs. destruct s; [done|]. apply strip_is_trim.
  - destruct name as [[|c s]|]; [by vm_compute; repeat constructor | | by vm_compute; repeat constructor].
    eapply is_trim_of_Forall; [apply strip_is_trim|].
    apply Forall_fmap, Forall_true. intros x. apply sanitize_char_allowed.
Qed.

(** ** NameDeduplicator *)

Lemma deduplicate_requested seen base k :
  requested seen base k →
  (deduplicate base seen).1 = suffixed base k
  ∧ requested (deduplicate base seen).2 base (k + 1).
Proof.
  intros [Hk Hseen]. unfold deduplicate, suffixed, requested. rewrite Hseen.
  case_decide as Hz; simpl.
  - subst k. split_and!; [done | lia |]. by rewrite lookup_insert_eq.
  - replace (k - 1 + 1) with k by lia. split_and!; [done | lia |].
    rewrite lookup_insert_eq. case_decide; [lia | f_equal; lia].
Qed.

Lemma deduplicate_other seen c base :
  c ≠ base → (deduplicate c seen).2 !! base = seen !! base.
Proof.
  intros Hne. unfold deduplicate.
  destruct (seen !! c); simpl; by rewrite lookup_insert_ne.
Qed.

Lemma results_for_requested base calls : ∀ seen k,
  requested seen base k →
  let n := Z.of_nat (length (filter (fun c => c = base) calls)) in
  results_for base calls (dedup_calls calls seen).1 = suffixed base <$> seqZ k n
  ∧ requested (dedup_calls calls seen).2 base (k + n).
Proof.
  induction calls as [|c calls IH]; intros seen k Hreq; simpl.
  { split; [done|]. by rewrite Z.add_0_r. }
  destruct (deduplicate c seen) as [r seen1] eqn:Hd.
  destruct (dedup_calls calls seen1) as [rs seen2] eqn:Hrest.
  unfold results_for in *. simpl.
  destruct (decide (c = base)) as [->|Hne].
  - destruct (deduplicate_requested _ _ _ Hreq) as [Hr Hreq1].
    rewrite Hd in Hr, Hreq1. simpl in Hr, Hreq1.
    destruct (IH seen1 (k + 1) Hreq1) as [IH1 IH2]. rewrite Hrest in IH1, IH2.
    simpl in IH1, IH2.
    rewrite !filter_cons_True by done. cbn [length fmap list_fmap snd].
    rewrite Nat2Z.inj_succ, seqZ_cons by lia. cbn [fmap list_fmap].
    replace (Z.pred (Z.succ (Z.of_nat (length (filter (λ c, c = base) calls)))))
      with (Z.of_nat (length (filter (λ c, c = base) calls))) by lia.
    replace (Z.succ k) with (k + 1) by lia.
    split; [by rewrite Hr, <- IH1|].
    by replace (k + Z.succ (Z.of_nat (length (filter (λ c, c = base) calls))))
      with (k + 1 + Z.of_nat (length (filter (λ c, c = base) calls))) by lia.
  - assert (Hreq1 : requested seen1 base k).
    { destruct Hreq as [Hk Hs]. split; [done|].
      rewrite <- Hs. change seen1 with ((r, seen1).2). rewrite <- Hd.
      by apply deduplicate_other. }
    destruct (IH seen1 k Hreq1) as [IH1 IH2]. rewrite Hrest in IH1, IH2.
    simpl in IH1, IH2.
    by rewrite !filter_cons_False by done.
Qed.

Lemma suffixed_inj base j k : suffixed base j = suffixed base k → j = k.
Proof.
  unfold suffixed. intros Heq.
  destruct (decide (j = 0)) as [->|Hj], (decide (k = 0)) as [->|Hk]; [done | | |].
  - apply (f_equal length) in Heq. rewrite !length_app in Heq. simpl in Heq. lia.
  - apply (f_equal length) in Heq. rewrite !length_app in Heq. simpl in Heq. lia.
  - apply app_inv_head in Heq. apply app_inv_head in Heq. by apply str_int_inj.
Qed.

Lemma suffixed_sequence base (n : nat) :
  suffixed base <$> seqZ 0 (Z.of_nat n) = dedup_sequence base n.
Proof.
  destruct n as [|m]; [done|].
  rewrite Nat2Z.inj_succ, seqZ_cons by lia. simpl.
  replace (Z.pred (Z.succ (Z.of_nat m))) with (Z.of_nat m) by lia.
  f_equal. apply list_fmap_ext. intros i k Hk.
  apply lookup_seqZ in Hk as [-> _]. unfold suffixed. case_decide; [lia | done].
Qed.

(** C4. Against a registry that does not hold [base] yet, the first call
    for [base] returns it unchanged and stores counter 0; and in every
    sequence of calls, the calls for [base] return [base], [base_1],
    [base_2], ... in call order, which are pairwise distinct, and leave the
    number of repeats as the counter. *)
Theorem deduplicate_same_base (base : pystr) (calls : list pystr)
    (seen : gmap pystr Z) :
  seen !! base = None →
  let n := length (filter (fun c => c = base) calls) in
  deduplicate base seen = (base, <[base := 0]> seen)
  ∧ results_for base calls (dedup_calls calls seen).1 = dedup_sequence base n
  ∧ NoDup (results_for base calls (dedup_calls calls seen).1)
  ∧ ((0 < n)%nat → (dedup_calls calls seen).2 !! base = Some (Z.of_nat n - 1)).
Proof.
  intros Hnone n.
  assert (Hreq : requested seen base 0) by (split; [lia | done]).
  destruct (results_for_requested base calls seen 0 Hreq) as [Hres [_ Hfin]].
  fold n in Hres, Hfin. rewrite suffixed_sequence in Hres.
  split_and!.
  - unfold deduplicate. by rewrite Hnone.
  - done.
  - rewrite Hres, <- suffixed_sequence.
    apply NoDup_fmap_2; [intros j k; apply suffixed_inj | apply NoDup_seqZ].
  - intros Hn. rewrite Hfin. case_decide; [lia | f_equal; lia].
Qed.

(** ** Human-readable sizes *)

Lemma round_half_even_nearest p q :
  0 < q → - q ≤ 2 * (p - q * round_half_even p q) ≤ q.
Proof.
  intros Hq. unfold round_half_even.
  pose proof (Z.div_mod p q ltac:(lia)) as Hdm.
  pose proof (Z.mod_pos_bound p q Hq) as Hr.
  destruct (Z.ltb_spec (2 * (p mod q)) q); [nia|].
  destruct (Z.ltb_spec q (2 * (p mod q))); [nia|].
  destruct (Z.even (p / q)); nia.
Qed.

Lemma true_div_pow2_exact b s :
  0 < b < 2 ^ 53 → true_div_pow2 b s = Float b (- s).
Proof.
  intros [Hpos Hlt]. unfold true_div_pow2.
  apply Z.log2_lt_pow2 in Hlt; [|done].
  destruct (Z.leb_spec (Z.log2 b + 1 - 53) 0); [done | lia].
Qed.

Lemma tenths_exact b s :
  0 < b < 2 ^ 53 → 0 < s →
  tenths (true_div_pow2 b s) = round_half_even (b * 10) (2 ^ s).
Proof.
  intros Hb Hs. rewrite true_div_pow2_exact by done. unfold tenths. simpl.
  destruct (Z.leb_spec 0 (- s)); [lia|]. by rewrite Z.opp_involutive.
Qed.

(** C8. A byte count below 1024 is rendered as plain bytes; below 1024^2
    as kilobytes with one decimal, the tenth nearest to [b / 1024]; and
    from there on as megabytes with one decimal, the tenth nearest to
    [b / 1024^2] as long as the count is exact as a float.  500 is
    rendered [500 B], 2048 [2.0 KB] and 3 * 1024 * 1024 [3.0 MB]. *)
Theorem fmt_bytes_units (b : Z) :
  0 ≤ b →
  (b < 1024 → fmt_bytes b = str_int b ++ py " B")
  ∧ (1024 ≤ b < 1024 ^ 2 →
       ∃ t, fmt_bytes b = str_int (t / 10) ++ py "." ++ str_int (t mod 10) ++ py " KB"
            ∧ - 1024 ≤ 2 * (10 * b - 1024 * t) ≤ 1024)
  ∧ (1024 ^ 2 ≤ b →
       ∃ t, fmt_bytes b = str_int (t / 10) ++ py "." ++ str_int (t mod 10) ++ py " MB"
            ∧ (b < 2 ^ 53 → - 1024 ^ 2 ≤ 2 * (10 * b - 1024 ^ 2 * t) ≤ 1024 ^ 2))
  ∧ fmt_bytes 500 = py "500 B"
  ∧ fmt_bytes 2048 = py "2.0 KB"
  ∧ fmt_bytes (3 * 1024 * 1024) = py "3.0 MB".
Proof.
  intros Hb. split_and!; [| | |by vm_compute..].
  - intros Hlt. unfold fmt_bytes. by destruct (Z.ltb_spec b 1024); [|lia].
  - intros [Hge Hlt]. unfold fmt_bytes.
    destruct (Z.ltb_spec b 1024); [lia|].
    destruct (Z.ltb_spec b (1024 ^ 2)); [|lia].
    exists (round_half_even (b * 10) (2 ^ 10)). split.
    + unfold format_1f, one_decimal. rewrite tenths_exact by lia.
      by rewrite <- !app_assoc.
    + pose proof (round_half_even_nearest (b * 10) (2 ^ 10) ltac:(lia)). lia.
  - intros Hge. unfold fmt_bytes.
    destruct (Z.ltb_spec b 1024); [lia|].
    destruct (Z.ltb_spec b (1024 ^ 2)); [lia|].
    exists (tenths (true_div_pow2 b 20)). split.
    + unfold format_1f, one_decimal. by rewrite <- !app_assoc.
    + intros Hlt. rewrite tenths_exact by lia.
      pose proof (round_half_even_nearest (b * 10) (2 ^ 20) ltac:(lia)). lia.
Qed.

(** ** StatsAggregator *)

Lemma dict_sum_insert_fresh (d : gmap pystr Z) k v :
  d !! k = None → dict_sum (<[k := v]> d) = v + dict_sum d.
Proof.
  intros Hk. unfold dict_sum.
  apply (map_fold_insert_L (fun _ v acc => v + acc)); [|done].
  intros. lia.
Qed.

Lemma dict_sum_bump (d : gmap pystr Z) k :
  dict_sum (<[k := default 0 (d !! k) + 1]> d) = dict_sum d + 1.
Proof.
  destruct (d !! k) as [v|] eqn:Hk; simpl.
  - rewrite <- (insert_delete_eq d k (v + 1)).
    rewrite dict_sum_insert_fresh by apply lookup_delete_eq.
    rewrite <- (insert_delete_id d k v Hk) at 2.
    rewrite dict_sum_insert_fresh by apply lookup_delete_eq. lia.
  - rewrite dict_sum_insert_fresh by done. lia.
Qed.

Lemma stats_fold_sum assets : ∀ acc,
  dict_sum (foldl stats_step acc assets).1 = dict_sum acc.1 + Z.of_nat (length assets).
Proof.
  induction assets as [|a assets IH]; intros acc; simpl; [lia|].
  rewrite IH. simpl. rewrite dict_sum_bump. lia.
Qed.

Lemma stats_fold_count c assets : ∀ acc,
  default 0 ((foldl stats_step acc assets).1 !! c)
  = default 0 (acc.1 !! c)
    + Z.of_nat (length (filter (fun a => Asset.type a = c) assets)).
Proof.
  induction assets as [|a assets IH]; intros acc; simpl; [lia|].
  rewrite IH. simpl. destruct (decide (Asset.type a = c)) as [<-|Hne].
  - rewrite lookup_insert_eq, filter_cons_True by done. simpl. lia.
  - rewrite lookup_insert_ne, filter_cons_False by done. done.
Qed.

Lemma size_set_of_list (l : list pystr) :
  size (list_to_set l : gset pystr) = length (remove_dups l).
Proof.
  assert (list_to_set (remove_dups l) = (list_to_set l : gset pystr)) as <-.
  { apply set_eq. intros x. by rewrite !elem_of_list_to_set, elem_of_remove_dups. }
  apply size_list_to_set, NoDup_remove_dups.
Qed.

(** C7. For every list of entries, [total] is the length of the list, the
    values of [byType] sum to [total], each category's count is the number
    of entries of that category, and [bundleCount] is the number of
    distinct [bundle] values. *)
Theorem build_stats_counts (entries : list Asset.t) :
  let stats := build_stats entries in
  Stats.total stats = Z.of_nat (length entries)
  ∧ dict_sum (Stats.byType stats) = Stats.total stats
  ∧ (∀ c, default 0 (Stats.byType stats !! c)
          = Z.of_nat (length (filter (fun a => Asset.type a = c) entries)))
  ∧ Stats.bundleCount stats = Z.of_nat (length (remove_dups (Asset.bundle <$> entries))).
Proof.
  unfold build_stats.
  pose proof (stats_fold_sum entries (∅, 0)) as Hsum.
  pose proof (fun c => stats_fold_count c entries (∅, 0)) as Hcount.
  destruct (foldl stats_step (∅, 0) entries) as [by_type total]. simpl in *.
  split_and!.
  - done.
  - rewrite Hsum. unfold dict_sum. rewrite map_fold_empty. lia.
  - intros c. rewrite Hcount, lookup_empty. simpl. lia.
  - by rewrite size_set_of_list.
Qed.

(** ** Geometry exporter *)

Lemma res_bind_Ok {A B} (a : A) (k : A → res B) : (Ok a ≫= k) = k a.
Proof. done. Qed.

Lemma res_bind_inv {A B} (m : res A) (k : A → res B) b :
  (m ≫= k) = Ok b → ∃ a, m = Ok a ∧ k a = Ok b.
Proof. destruct m as [a|e]; [by exists a | done]. Qed.

Lemma format_item_number x : is_number x = true → format_item x = Ok (number_text x).
Proof. by destruct x. Qed.

Lemma write_triples_cons line x y z rest :
  write_triples line (x :: y :: z :: rest)
  = (l ← line x y z; ls ← write_triples line rest; mret (l ++ ls)).
Proof. done. Qed.

Lemma vertex_line_numbers x y z :
  is_number x = true → is_number y = true → is_number z = true →
  vertex_line x y z = Ok (vertex_text (x, y, z)).
Proof.
  intros Hx Hy Hz. unfold vertex_line.
  rewrite !format_item_number by done. simpl.
  unfold vertex_text. simpl. by rewrite <- ?app_assoc.
Qed.

Lemma face_line_ints a b c :
  face_line (VInt a) (VInt b) (VInt c) = Ok (face_text (a, b, c)).
Proof. unfold face_line, face_text. simpl. by rewrite <- ?app_assoc. Qed.

Lemma write_vertex_lines verts :
  Forall (fun v => is_number v.1.1 = true ∧ is_number v.1.2 = true
                   ∧ is_number v.2 = true) verts →
  write_triples vertex_line (flat3 verts) = Ok (mjoin (vertex_text <$> verts)).
Proof.
  induction 1 as [|[[x y] z] verts (Hx & Hy & Hz) _ IH]; [done|].
  change (flat3 (((x, y), z) :: verts)) with (x :: y :: z :: flat3 verts).
  rewrite write_triples_cons, vertex_line_numbers, IH by done. done.
Qed.

Lemma write_face_lines (tris : list (Z * Z * Z)) :
  write_triples face_line (VInt <$> flat3 tris) = Ok (mjoin (face_text <$> tris)).
Proof.
  induction tris as [|[[a b] c] tris IH]; [done|].
  change (VInt <$> flat3 (((a, b), c) :: tris))
    with (VInt a :: VInt b :: VInt c :: (VInt <$> flat3 tris)).
  rewrite write_triples_cons, face_line_ints, IH. done.
Qed.

Lemma tree_get_array items key a :
  array_field items key a → tree_get items key = VList a.
Proof. unfold tree_get. by intros [-> | [-> ->]]. Qed.

(** C6, as amended. For a mesh whose tree holds a flat array of the
    numbers of the vertices in [m_Vertices] and a flat array of the indices
    of the triangles in [m_IndexBuffer], each of them possibly missing and
    then taken as empty, the exporter writes the two comment lines of the
    header, then one line [v x y z] per vertex, then one line
    [f i1+1 i2+1 i3+1] per triangle. *)
Theorem export_mesh_lines (name : pystr) (obj : ObjectRecord)
    (items : list (pystr * pyval))
    (verts : list (pyval * pyval * pyval)) (tris : list (Z * Z * Z)) :
  parse_as_dict obj = Ok items →
  Forall (fun v => is_number v.1.1 = true ∧ is_number v.1.2 = true
                   ∧ is_number v.2 = true) verts →
  array_field items (py "m_Vertices") (flat3 verts) →
  array_field items (py "m_IndexBuffer") (VInt <$> flat3 tris) →
  export_mesh name obj
  = (content ← encode_utf8
       (py "# Exported by UnityRip" ++ nl ++ py "# Mesh: " ++ name ++ nl
        ++ mjoin (vertex_text <$> verts) ++ mjoin (face_text <$> tris));
     mret (Some content)).
Proof.
  intros Hparse Hnum Hv Hi. unfold export_mesh, mesh_text.
  rewrite Hparse, res_bind_Ok.
  rewrite (tree_get_array _ _ _ Hv). cbn [as_sequence]. rewrite res_bind_Ok.
  rewrite write_vertex_lines, res_bind_Ok by done.
  rewrite (tree_get_array _ _ _ Hi). cbn [as_sequence]. rewrite res_bind_Ok.
  rewrite write_face_lines, !res_bind_Ok.
  unfold mesh_header. by rewrite <- !app_assoc.
Qed.

(** ** One iteration of the pipeline *)

(** The three ways an iteration ends: the state is untouched (type not in
    the table, or parsing or naming raised); a name is taken and nothing is
    appended; a name is taken and one entry is appended. *)
Lemma process_object_inv out_dir obj st :
  process_object out_dir obj st = st
  ∨ ∃ meta data base,
      dict_get TYPE_META (type_name obj) = Some meta
      ∧ parse_and_name obj = Ok (data, base)
      ∧ let name := (deduplicate base (seen_names st)).1 in
        let seen := (deduplicate base (seen_names st)).2 in
        let rel_path := os_path_join (meta_type meta) (name ++ py "." ++ meta_ext meta) in
        process_object out_dir obj st = {| assets := assets st; seen_names := seen |}
        ∨ ∃ content,
            export name data obj = Some content
            ∧ process_object out_dir obj st
              = {| assets := assets st ++ [make_entry obj meta name rel_path content];
                   seen_names := seen |}.
Proof.
  unfold process_object.
  destruct (dict_get TYPE_META (type_name obj)) as [meta|]; [|by left].
  destruct (parse_and_name obj) as [[data base]|e]; [|by left].
  right. exists meta, data, base. split_and!; [done..|].
  destruct (deduplicate base (seen_names st)) as [name seen]. cbn [fst snd].
  destruct (os_makedirs _); [|by left]. rewrite res_bind_Ok.
  destruct (export name data obj) as [content|] eqn:Hexp; [|by left].
  right. by exists content.
Qed.

Lemma process_object_failed_export out_dir obj st meta data base :
  dict_get TYPE_META (type_name obj) = Some meta →
  parse_and_name obj = Ok (data, base) →
  export (deduplicate base (seen_names st)).1 data obj = None →
  process_object out_dir obj st
  = {| assets := assets st; seen_names := (deduplicate base (seen_names st)).2 |}.
Proof.
  intros Hmeta Hparse Hexp. unfold process_object. rewrite Hmeta, Hparse.
  destruct (deduplicate base (seen_names st)) as [name seen]. cbn [fst snd] in *.
  destruct (os_makedirs _); [|done]. by rewrite res_bind_Ok, Hexp.
Qed.

Lemma process_object_raised out_dir obj st e :
  parse_and_name obj = Raise e → process_object out_dir obj st = st.
Proof.
  intros Hparse. unfold process_object. rewrite Hparse.
  by destruct (dict_get TYPE_META (type_name obj)).
Qed.

(** ** Exporters never leave an empty file behind a success *)

Lemma utf8_char_nonempty c : utf8_char c ≠ [].
Proof. unfold utf8_char. by repeat case_match. Qed.

Lemma encode_utf8_nonempty s content :
  s ≠ [] → encode_utf8 s = Ok content → content ≠ [].
Proof.
  destruct s as [|c s]; [done|]. intros _. cbn [encode_utf8].
  destruct (is_surrogate c); [done|].
  destruct (encode_utf8 s) as [rest|]; [|done]. rewrite res_bind_Ok.
  intros [= <-]. pose proof (utf8_char_nonempty c). by destruct (utf8_char c).
Qed.

Lemma export_image_nonempty data content :
  export_image data = Ok (Some content) → content ≠ [].
Proof.
  unfold export_image, image_save.
  destruct (image data) as [[img|]|]; [|done..]. rewrite res_bind_Ok.
  destruct (png_chunks img) as [chunks|]; [|done]. rewrite !res_bind_Ok.
  by intros [= <-].
Qed.

Lemma export_audio_nonempty data content :
  export_audio data = Ok (Some content) → content ≠ [].
Proof.
  unfold export_audio, first_sample.
  destruct (samples data) as [items|]; [|done]. rewrite res_bind_Ok.
  intros [= Hfind].
  match type of Hfind with
  | context [find ?f ?l] => destruct (find f l) as [[k v]|] eqn:Hf; [|done]
  end.
  apply find_some in Hf as [_ Hv]. simpl in *. simplify_eq.
  apply negb_true_iff, bool_decide_eq_false in Hv. done.
Qed.

Lemma export_text_nonempty data content :
  export_text data = Ok (Some content) → content ≠ [].
Proof.
  unfold export_text.
  destruct (m_Script data) as [[[[|b bs]|[|c s]]|]|]; try done; rewrite res_bind_Ok.
  - by intros [= <-].
  - intros [= <-]. unfold encode_utf8_replace. cbn [mbind list_bind].
    destruct (is_surrogate c); [done|].
    pose proof (utf8_char_nonempty c). by destruct (utf8_char c).
Qed.

Lemma json_dumps_dict_nonempty d : json_dumps (VDict d) ≠ [].
Proof. by destruct d. Qed.

Lemma export_json_nonempty obj content :
  export_json obj = Ok (Some content) → content ≠ [].
Proof.
  unfold export_json.
  destruct (parse_as_dict obj) as [d|]; [|done]. rewrite res_bind_Ok.
  destruct (encode_utf8 _) as [c|] eqn:Henc; [|done]. rewrite res_bind_Ok.
  intros [= <-]. eapply encode_utf8_nonempty; [|done]. apply json_dumps_dict_nonempty.
Qed.

Lemma mesh_text_header name d text :
  mesh_text name d = Ok text → ∃ body, text = mesh_header name ++ body.
Proof.
  unfold mesh_text.
  intros (verts & _ & H)%res_bind_inv.
  apply res_bind_inv in H as (vlines & _ & H).
  apply res_bind_inv in H as (indices & _ & H).
  apply res_bind_inv in H as (flines & _ & H).
  injection H as <-. by eexists.
Qed.

Lemma export_mesh_nonempty name obj content :
  export_mesh name obj = Ok (Some content) → content ≠ [].
Proof.
  unfold export_mesh.
  intros (d & _ & H)%res_bind_inv.
  apply res_bind_inv in H as (text & Htext & H).
  apply res_bind_inv in H as (c & Henc & H).
  injection H as <-. eapply encode_utf8_nonempty; [|done].
  apply mesh_text_header in Htext as [body ->]. done.
Qed.

Lemma export_nonempty name data obj content :
  export name data obj = Some content → content ≠ [].
Proof.
  unfold export, try_pass. intros H.
  repeat case_bool_decide;
    repeat match goal with
    | H : match ?m with Ok _ => _ | Raise _ => _ end = Some _ |- _ =>
        destruct m as [[?|]|] eqn:?; [|done..]
    end; simplify_eq;
    eauto using export_image_nonempty, export_audio_nonempty,
      export_text_nonempty, export_json_nonempty, export_mesh_nonempty.
Qed.

(** ** The loop *)

Lemma run_loop_app out_dir pre post st :
  run_loop out_dir (pre ++ post) st = run_loop out_dir post (run_loop out_dir pre st).
Proof. apply foldl_app. Qed.

Lemma run_loop_cons out_dir obj post st :
  run_loop out_dir (obj :: post) st = run_loop out_dir post (process_object out_dir obj st).
Proof. done. Qed.

Lemma process_object_prefix out_dir obj st :
  assets st `prefix_of` assets (process_object out_dir obj st).
Proof.
  destruct (process_object_inv out_dir obj st)
    as [-> | (meta & data & base & _ & _ & [-> | (content & _ & ->)])]; simpl.
  - done.
  - done.
  - by apply prefix_app_r.
Qed.

Lemma run_loop_prefix out_dir objs : ∀ st,
  assets st `prefix_of` assets (run_loop out_dir objs st).
Proof.
  induction objs as [|obj objs IH]; intros st; [done|].
  rewrite run_loop_cons. etrans; [apply process_object_prefix | apply IH].
Qed.

(** An invariant of the entries is kept by the loop when every entry the
    step can append satisfies it. *)
Lemma run_loop_Forall (P : Asset.t → Prop) out_dir :
  (∀ obj st meta data base content,
     dict_get TYPE_META (type_name obj) = Some meta →
     parse_and_name obj = Ok (data, base) →
     let name := (deduplicate base (seen_names st)).1 in
     let rel_path := os_path_join (meta_type meta) (name ++ py "." ++ meta_ext meta) in
     export name data obj = Some content →
     P (make_entry obj meta name rel_path content)) →
  ∀ objs st, Forall P (assets st) → Forall P (assets (run_loop out_dir objs st)).
Proof.
  intros Hstep. induction objs as [|obj objs IH]; intros st Hst; [done|].
  rewrite run_loop_cons. apply IH.
  destruct (process_object_inv out_dir obj st)
    as [-> | (meta & data & base & Hmeta & Hparse & [-> | (content & Hexp & ->)])]; simpl.
  - done.
  - done.
  - apply Forall_app. split; [done|]. apply Forall_singleton. eauto.
Qed.

(** C5. When the export step of an object fails, no entry is appended
    for it; an export step that succeeds has written at least one byte; and
    no run produces an entry whose [sizeBytes] is 0. *)
Theorem failed_export_leaves_no_entry (out_dir : pystr) (obj : ObjectRecord)
    (st : RunState) (meta : TypeMeta) (data : Payload) (base : pystr) :
  dict_get TYPE_META (type_name obj) = Some meta →
  parse_and_name obj = Ok (data, base) →
  let name := (deduplicate base (seen_names st)).1 in
  (export name data obj = None →
     assets (process_object out_dir obj st) = assets st)
  ∧ (∀ content, export name data obj = Some content → content ≠ [])
  ∧ (∀ objs, Forall (fun e => 0 < Asset.sizeBytes e)
               (assets (run_loop out_dir objs initial))).
Proof.
  intros Hmeta Hparse name. split_and!.
  - intros Hexp. by rewrite (process_object_failed_export _ _ _ _ _ _ Hmeta Hparse Hexp).
  - intros content. apply export_nonempty.
  - intros objs. apply run_loop_Forall; [|by constructor].
    intros o s m d b content _ _ n r Hexp%export_nonempty. simpl.
    destruct content; [done | simpl; lia].
Qed.

(** ** Consistency of the entries *)

Lemma parse_and_name_allowed obj data base :
  parse_and_name obj = Ok (data, base) → Forall (fun c => allowed c = true) base.
Proof.
  unfold parse_and_name.
  intros (d & _ & H)%res_bind_inv. apply res_bind_inv in H as (raw & _ & H).
  injection H as _ <-. apply safe_name_contract.
Qed.

Lemma allowed_not_slash c : allowed c = true → (c =? slash)%N = false.
Proof.
  intros Hc. apply N.eqb_neq. intros ->. by vm_compute in Hc.
Qed.

Lemma deduplicate_name base seen :
  (deduplicate base seen).1 = base
  ∨ ∃ n, (deduplicate base seen).1 = base ++ py "_" ++ str_int n.
Proof. unfold deduplicate. case_match; [right; by eexists | by left]. Qed.

Lemma filename_not_absolute base seen ext :
  Forall (fun c => allowed c = true) base →
  startswith_slash ((deduplicate base seen).1 ++ py "." ++ ext) = false.
Proof.
  intros Hbase.
  destruct (deduplicate_name base seen) as [-> | [n ->]];
    destruct Hbase as [|c base Hc _]; try done; simpl; by apply allowed_not_slash.
Qed.

Lemma TYPE_META_category t meta :
  dict_get TYPE_META t = Some meta →
  bool_decide (meta_type meta = []) || endswith_slash (meta_type meta) = false.
Proof.
  assert (Forall (fun kv : pystr * TypeMeta =>
            bool_decide (meta_type kv.2 = []) || endswith_slash (meta_type kv.2) = false)
          TYPE_META) as Hall by (repeat constructor).
  induction Hall as [|[k v] d Hkv _ IH]; [done|]. simpl.
  case_decide; [by intros [= <-] | done].
Qed.

(** C10. In every run, each entry appended has [filename] equal to
    [name], a dot and [ext]; [relativePath] equal to the category joined
    with [filename], that is the category, a slash and [filename]; and
    [ext] and [type] equal to the extension and the category the table
    gives for the entry's [unityType]. *)
Theorem entries_consistent (out_dir : pystr) (objs : list ObjectRecord) :
  Forall entry_consistent (assets (run_loop out_dir objs initial)).
Proof.
  apply run_loop_Forall; [|by constructor].
  intros obj st meta data base content Hmeta Hparse name rel_path _.
  unfold entry_consistent, make_entry.
  cbn [Asset.filename Asset.name Asset.ext Asset.type Asset.relativePath Asset.unityType].
  split_and!; [done | done | | by exists meta].
  unfold rel_path, name, os_path_join.
  rewrite (filename_not_absolute _ _ _ (parse_and_name_allowed _ _ _ Hparse)).
  by rewrite (TYPE_META_category _ _ Hmeta).
Qed.

(** ** The destination directory can always be made *)

Lemma rev_head_slash l : slash ∈ l → ∃ r, rev_head l = slash :: r.
Proof.
  induction l as [|c l IH]; [by intros ?%elem_of_nil|].
  intros Hin. cbn [rev_head]. destruct (c =? slash)%N eqn:Hc.
  - apply N.eqb_eq in Hc as ->. by eexists.
  - apply elem_of_cons in Hin as [<- | Hin]; [by rewrite N.eqb_refl in Hc | auto].
Qed.

Lemma os_path_dirname_nonempty p : slash ∈ p → os_path_dirname p ≠ [].
Proof.
  intros Hin. unfold os_path_dirname.
  destruct (rev_head_slash (reverse p)) as [r ->]; [by apply elem_of_reverse|].
  destruct (drop_slashes (slash :: r)) as [|c stripped].
  - rewrite reverse_cons. by destruct (reverse r).
  - rewrite reverse_cons. by destruct (reverse stripped).
Qed.

Lemma os_path_join_slash a b : slash ∈ b → slash ∈ os_path_join a b.
Proof.
  intros Hb. unfold os_path_join. repeat case_match; set_solver.
Qed.

Lemma abs_path_dir_made out_dir category filename :
  os_makedirs (os_path_dirname (os_path_join out_dir (category ++ py "/" ++ filename)))
  = Ok tt.
Proof.
  pose proof (os_path_dirname_nonempty
    (os_path_join out_dir (category ++ py "/" ++ filename))) as Hne.
  destruct (os_path_dirname _); [|done].
  destruct Hne; [|done]. apply os_path_join_slash.
  apply elem_of_app. right. by left.
Qed.

(** An iteration whose exporter succeeds appends its entry, whatever the
    output directory. *)
Lemma process_object_exported out_dir obj st meta data base content :
  dict_get TYPE_META (type_name obj) = Some meta →
  parse_and_name obj = Ok (data, base) →
  let name := (deduplicate base (seen_names st)).1 in
  let rel_path := os_path_join (meta_type meta) (name ++ py "." ++ meta_ext meta) in
  export name data obj = Some content →
  process_object out_dir obj st
  = {| assets := assets st ++ [make_entry obj meta name rel_path content];
       seen_names := (deduplicate base (seen_names st)).2 |}.
Proof.
  intros Hmeta Hparse name rel_path Hexp. unfold process_object.
  rewrite Hmeta, Hparse.
  assert (Hrel : rel_path = meta_type meta ++ py "/" ++ name ++ py "." ++ meta_ext meta).
  { unfold rel_path, name, os_path_join.
    rewrite (filename_not_absolute _ _ _ (parse_and_name_allowed _ _ _ Hparse)).
    by rewrite (TYPE_META_category _ _ Hmeta). }
  subst name rel_path.
  destruct (deduplicate base (seen_names st)) as [name seen]. cbn [fst snd] in *.
  rewrite Hrel at 1. rewrite abs_path_dir_made, res_bind_Ok. by rewrite Hexp.
Qed.

Lemma process_object_out_dir out_dir out_dir' obj st :
  process_object out_dir obj st = process_object out_dir' obj st.
Proof.
  destruct (dict_get TYPE_META (type_name obj)) as [meta|] eqn:Hmeta;
    [|unfold process_object; by rewrite Hmeta].
  destruct (parse_and_name obj) as [[data base]|e] eqn:Hparse;
    [|by rewrite !(process_object_raised _ _ _ _ Hparse)].
  destruct (export (deduplicate base (seen_names st)).1 data obj) as [content|] eqn:Hexp.
  - by rewrite !(process_object_exported _ _ _ _ _ _ _ Hmeta Hparse Hexp).
  - by rewrite !(process_object_failed_export _ _ _ _ _ _ Hmeta Hparse Hexp).
Qed.

Lemma run_loop_out_dir out_dir out_dir' objs : ∀ st,
  run_loop out_dir objs st = run_loop out_dir' objs st.
Proof.
  induction objs as [|obj objs IH]; intros st; [done|].
  by rewrite !run_loop_cons, IH, (process_object_out_dir out_dir out_dir').
Qed.

(** ** Failure isolation *)

Lemma failed_object_assets out_dir obj st :
  raises_before_export obj ∨ export_fails obj st →
  assets (process_object out_dir obj st) = assets st.
Proof.
  intros [[e He] | (data & base & Hparse & Hexp)].
  - by rewrite (process_object_raised _ _ _ _ He).
  - destruct (dict_get TYPE_META (type_name obj)) as [meta|] eqn:Hmeta.
    + by rewrite (process_object_failed_export _ _ _ _ _ _ Hmeta Hparse Hexp).
    + unfold process_object. by rewrite Hmeta.
Qed.

Lemma extract_apk_loaded UnityPy_load apk_path out_dir env objs :
  out_dir ≠ [] → UnityPy_load apk_path = Ok env → objects env = Ok objs →
  extract_apk UnityPy_load apk_path out_dir
  = Ok (assets (run_loop out_dir objs initial)).
Proof.
  intros Hout Hload Hobjs. unfold extract_apk.
  destruct out_dir; [done|]. cbn [os_makedirs].
  by rewrite res_bind_Ok, Hload, res_bind_Ok, Hobjs, res_bind_Ok.
Qed.

Lemma main_written UnityPy_load argv0 apk_path out_dir manifest_path :
  os_path_dirname manifest_path ≠ [] →
  main UnityPy_load [argv0; apk_path; out_dir; manifest_path]
  = {| manifest := Some (run_result UnityPy_load apk_path out_dir);
       exit_code :=
         if manifest_ok (run_result UnityPy_load apk_path out_dir) then 0 else 1 |}.
Proof.
  intros Hdir. unfold main. by destruct (os_path_dirname manifest_path).
Qed.

Lemma exported_app o1 o2 : exported (o1 ++ o2) = exported o1 ++ exported o2.
Proof. apply omap_app. Qed.

(** One iteration of the loop does what the steps of the specification
    say, on the entries and on the registry. *)
Lemma process_object_spec out_dir obj st :
  process_object out_dir obj st
  = {| assets := assets st ++ exported [(spec_step (seen_names st) obj).1];
       seen_names := (spec_step (seen_names st) obj).2 |}.
Proof.
  unfold spec_step.
  destruct (dict_get TYPE_META (type_name obj)) as [meta|] eqn:Hmeta.
  2: { unfold process_object. rewrite Hmeta. cbn [fst snd exported omap list_omap].
       rewrite app_nil_r. by destruct st. }
  destruct (parse_and_name obj) as [[data base]|e] eqn:Hparse.
  2: { rewrite (process_object_raised _ _ _ _ Hparse). cbn [fst snd exported omap list_omap].
       rewrite app_nil_r. by destruct st. }
  destruct (export (deduplicate base (seen_names st)).1 data obj) as [content|] eqn:Hexp.
  - rewrite (process_object_exported _ _ _ _ _ _ _ Hmeta Hparse Hexp).
    assert (Hrel : os_path_join (meta_type meta)
                     ((deduplicate base (seen_names st)).1 ++ py "." ++ meta_ext meta)
                   = meta_type meta ++ py "/" ++ (deduplicate base (seen_names st)).1
                     ++ py "." ++ meta_ext meta).
    { unfold os_path_join.
      rewrite (filename_not_absolute _ _ _ (parse_and_name_allowed _ _ _ Hparse)).
      by rewrite (TYPE_META_category _ _ Hmeta). }
    rewrite Hrel.
    destruct (deduplicate base (seen_names st)) as [name seen]. cbn [fst snd] in *.
    by rewrite Hexp.
  - rewrite (process_object_failed_export _ _ _ _ _ _ Hmeta Hparse Hexp).
    destruct (deduplicate base (seen_names st)) as [name seen]. cbn [fst snd] in *.
    rewrite Hexp. cbn [fst snd exported omap list_omap]. by rewrite app_nil_r.
Qed.

(** The loop does what the specification's pipeline says. *)
Lemma run_loop_spec out_dir objs : ∀ st,
  run_loop out_dir objs st
  = {| assets := assets st ++ exported (spec_run (seen_names st) objs).1;
       seen_names := (spec_run (seen_names st) objs).2 |}.
Proof.
  induction objs as [|obj objs IH]; intros st.
  { cbn [run_loop foldl spec_run fst snd exported omap list_omap].
    rewrite app_nil_r. by destruct st. }
  rewrite run_loop_cons, IH, process_object_spec. cbn [assets seen_names spec_run].
  destruct (spec_step (seen_names st) obj) as [outcome registry]. cbn [fst snd].
  destruct (spec_run registry objs) as [outcomes registry']. cbn [fst snd].
  by rewrite <- app_assoc, <- exported_app.
Qed.

Lemma spec_run_app pre post : ∀ registry,
  spec_run registry (pre ++ post)
  = ((spec_run registry pre).1 ++ (spec_run (spec_run registry pre).2 post).1,
     (spec_run (spec_run registry pre).2 post).2).
Proof.
  induction pre as [|obj pre IH]; intros registry.
  { cbn [app spec_run fst snd]. by destruct (spec_run registry post). }
  cbn [app spec_run]. destruct (spec_step registry obj) as [outcome registry1].
  rewrite IH. by destruct (spec_run registry1 pre) as [outcomes registry2].
Qed.

(** Every object gets an outcome. *)
Lemma spec_run_length objs : ∀ registry,
  length (spec_run registry objs).1 = length objs.
Proof.
  induction objs as [|obj objs IH]; intros registry; [done|].
  cbn [spec_run]. destruct (spec_step registry obj) as [outcome registry1].
  specialize (IH registry1). destruct (spec_run registry1 objs). simpl in *. lia.
Qed.

(** The outcome of an object that raises while it is parsed, named or
    exported, and the registry it leaves. *)
Lemma spec_step_failed obj st :
  is_Some (dict_get TYPE_META (type_name obj)) →
  raises_before_export obj ∨ export_fails obj st →
  spec_step (seen_names st) obj
  = (Failed,
     match parse_and_name obj with
     | Ok (_, base) => (deduplicate base (seen_names st)).2
     | Raise _ => seen_names st
     end).
Proof.
  intros [meta Hmeta] Hfail. unfold spec_step. rewrite Hmeta.
  destruct Hfail as [[e He] | (data & base & Hparse & Hexp)].
  - by rewrite He.
  - rewrite Hparse.
    destruct (deduplicate base (seen_names st)) as [name seen]. cbn [fst snd] in *.
    by rewrite Hexp.
Qed.

(** C1, as amended. When one object of a type of the table raises while it
    is parsed, named or exported, its outcome is [Failed] and it has no
    entry; the objects before it and the objects after it are all
    processed, each with the outcome the steps of the pipeline give it;
    the run returns the entries of the exported ones and the manifest
    written is [ok: true] with exit code 0.  When the object raised while
    it was parsed or named, the registry is left as it was and the entries
    are those of the run without that object.  When it raised while it was
    exported, its base name stays counted in the registry that the
    objects after it are processed against. *)
Theorem failed_object_does_not_stop_run
    (UnityPy_load : pystr → res Environment) (apk_path out_dir : pystr)
    (env : Environment) (pre post : list ObjectRecord) (obj : ObjectRecord)
    (argv0 manifest_path : pystr) :
  out_dir ≠ [] →
  UnityPy_load apk_path = Ok env →
  objects env = Ok (pre ++ obj :: post) →
  os_path_dirname manifest_path ≠ [] →
  is_Some (dict_get TYPE_META (type_name obj)) →
  let before := run_loop out_dir pre initial in
  raises_before_export obj ∨ export_fails obj before →
  let registry :=
    match parse_and_name obj with
    | Ok (_, base) => (deduplicate base (seen_names before)).2
    | Raise _ => seen_names before
    end in
  let outcomes := (spec_run ∅ pre).1 ++ Failed :: (spec_run registry post).1 in
  assets (process_object out_dir obj before) = assets before
  ∧ (spec_run ∅ (pre ++ obj :: post)).1 = outcomes
  ∧ length outcomes = length (pre ++ obj :: post)
  ∧ extract_apk UnityPy_load apk_path out_dir = Ok (exported outcomes)
  ∧ (raises_before_export obj →
       registry = seen_names before
       ∧ exported outcomes = assets (run_loop out_dir (pre ++ post) initial))
  ∧ (∀ data base, parse_and_name obj = Ok (data, base) →
       registry !! base
       = Some (match seen_names before !! base with Some n => n + 1 | None => 0 end))
  ∧ main UnityPy_load [argv0; apk_path; out_dir; manifest_path]
    = {| manifest := Some (ManifestOk (exported outcomes) (build_stats (exported outcomes)));
         exit_code := 0 |}.
Proof.
  intros Hout Hload Hobjs Hdir Hmeta before Hfail registry outcomes.
  assert (Hbefore : before
            = {| assets := exported (spec_run ∅ pre).1;
                 seen_names := (spec_run ∅ pre).2 |}).
  { unfold before. by rewrite run_loop_spec. }
  assert (Hstep : spec_step (spec_run ∅ pre).2 obj = (Failed, registry)).
  { pose proof (spec_step_failed obj before Hmeta Hfail) as Hstep.
    by rewrite Hbefore in Hstep at 1. }
  assert (Hall : (spec_run ∅ (pre ++ obj :: post)).1 = outcomes).
  { rewrite spec_run_app. cbn [fst spec_run]. rewrite Hstep.
    by destruct (spec_run registry post). }
  assert (Hrun : extract_apk UnityPy_load apk_path out_dir = Ok (exported outcomes)).
  { rewrite (extract_apk_loaded _ _ _ _ _ Hout Hload Hobjs).
    rewrite run_loop_spec. unfold initial. cbn [assets seen_names app].
    by rewrite Hall. }
  split_and!.
  - by apply failed_object_assets.
  - done.
  - unfold outcomes. rewrite !length_app. cbn [length]. by rewrite !spec_run_length.
  - done.
  - intros [e He]. assert (Hreg : registry = seen_names before).
    { unfold registry. by rewrite He. }
    split; [done|].
    rewrite run_loop_app, (run_loop_spec _ post). cbn [assets].
    unfold outcomes. rewrite exported_app. cbn [exported omap list_omap].
    fold (exported (spec_run registry post).1).
    rewrite Hreg. f_equal. symmetry. exact (f_equal assets Hbefore).
  - intros data base Hparse. unfold registry. rewrite Hparse.
    unfold deduplicate. destruct (seen_names before !! base); cbn [snd];
      by rewrite lookup_insert_eq.
  - rewrite main_written by done. unfold run_result. by rewrite Hrun.
Qed.

(** ** Fatal failures and the exit code *)

Lemma format_exc_nonempty e : format_exc e ≠ [].
Proof. done. Qed.

(** C9, as amended. When loading the archive or listing its objects
    raises, the manifest written is [ok: false] with the message of the
    exception as [error] and a non-empty trace, and the exit code is 1;
    and whenever a manifest is written, the exit code is 0 if it is
    [ok: true] and 1 otherwise. *)
Theorem fatal_failure_manifest (UnityPy_load : pystr → res Environment)
    (apk_path out_dir argv0 manifest_path : pystr) (e : exn) :
  out_dir ≠ [] →
  os_path_dirname manifest_path ≠ [] →
  UnityPy_load apk_path = Raise e
  ∨ (∃ env, UnityPy_load apk_path = Ok env ∧ objects env = Raise e) →
  main UnityPy_load [argv0; apk_path; out_dir; manifest_path]
  = {| manifest := Some (ManifestError (exc_msg e) (format_exc e)); exit_code := 1 |}
  ∧ format_exc e ≠ []
  ∧ ∀ argv m, manifest (main UnityPy_load argv) = Some m →
      exit_code (main UnityPy_load argv) = if manifest_ok m then 0 else 1.
Proof.
  intros Hout Hdir Hfail. split_and!.
  - rewrite main_written by done.
    assert (extract_apk UnityPy_load apk_path out_dir = Raise e) as Hrun.
    { unfold extract_apk. destruct out_dir; [done|]. cbn [os_makedirs].
      rewrite res_bind_Ok.
      destruct Hfail as [-> | (env & -> & Hobjs)]; [done|].
      by rewrite res_bind_Ok, Hobjs. }
    unfold run_result. by rewrite Hrun.
  - apply format_exc_nonempty.
  - intros argv m. unfold main.
    destruct argv as [|a0 [|a1 [|a2 [|a3 rest]]]]; try done.
    destruct (os_makedirs _); [|done]. by intros [= <-].
Qed.

(** ** Two defects *)


(** C2, where it fails. Two textures named [a] and a sprite named [a_1]:
    the second texture is renamed [a_1], the sprite keeps [a_1], and the
    run ends with two different entries of category [texture] that share
    the file name [a_1.png]. *)
Theorem suffix_collides_with_name (out_dir : pystr) :
  (fun e => (Asset.type e, Asset.filename e, Asset.unityType e, Asset.sizeBytes e))
    <$> assets (run_loop out_dir
                  [image_object "Texture2D" "a" [1%N];
                   image_object "Texture2D" "a" [2%N];
                   image_object "Sprite" "a_1" [3%N; 4%N]] initial)
  = [ (py "texture", py "a.png", py "Texture2D", 9);
      (py "texture", py "a_1.png", py "Texture2D", 9);
      (py "texture", py "a_1.png", py "Sprite", 10) ].
Proof. rewrite (run_loop_out_dir out_dir (py "out")). reflexivity. Qed.

(** * Further properties of the code *)

(** ** More on [safe_name] *)

Lemma sanitize_char_id c : allowed c = true → sanitize_char c = c.
Proof. unfold allowed, sanitize_char. by intros ->. Qed.

Lemma sanitize_allowed_id s :
  Forall (fun c => allowed c = true) s → sanitize_char <$> s = s.
Proof.
  induction 1 as [|x l Hx _ IH]; [done|].
  cbn [fmap list_fmap]. rewrite (sanitize_char_id x Hx). by f_equal.
Qed.

Lemma lstrip_id s : (∀ c, head s = Some c → isspace c = false) → lstrip s = s.
Proof. destruct s as [|c s]; [done|]. intros H. simpl. by rewrite (H c). Qed.

Lemma strip_id s :
  (∀ c, head s = Some c → isspace c = false) →
  (∀ c, last s = Some c → isspace c = false) →
  strip s = s.
Proof.
  intros Hhd Hlast. unfold strip, rstrip. rewrite (lstrip_id s Hhd).
  rewrite lstrip_id; [apply reverse_involutive|].
  intros c. rewrite head_reverse. apply Hlast.
Qed.

Lemma strip_no_outer_space s :
  (∀ c, head (strip s) = Some c → isspace c = false)
  ∧ (∀ c, last (strip s) = Some c → isspace c = false).
Proof. destruct (strip_is_trim s) as (pre & post & _ & _ & _ & Hhd & Hlast). done. Qed.

Lemma safe_name_no_outer_space name :
  (∀ c, head (safe_name name) = Some c → isspace c = false)
  ∧ (∀ c, last (safe_name name) = Some c → isspace c = false).
Proof.
  destruct name as [[|c s]|]; [split; by intros ? [= <-] | | split; by intros ? [= <-]].
  apply strip_no_outer_space.
Qed.

(** X1. Whatever the name, the result of [safe_name] holds only allowed
    characters, neither starts nor ends with whitespace, and is no longer
    than a name that is not empty. *)
Theorem safe_name_output (name : option pystr) :
  Forall (fun c => allowed c = true) (safe_name name)
  ∧ (∀ c, head (safe_name name) = Some c → isspace c = false)
  ∧ (∀ c, last (safe_name name) = Some c → isspace c = false)
  ∧ (∀ s, name = Some s → s ≠ [] → (length (safe_name name) ≤ length s)%nat).
Proof.
  split_and!.
  - apply safe_name_contract.
  - apply safe_name_no_outer_space.
  - apply safe_name_no_outer_space.
  - intros s -> Hs.
    destruct (proj1 (proj2 (safe_name_contract (Some s))) s eq_refl Hs)
      as (pre & post & Heq & _).
    apply (f_equal length) in Heq. rewrite length_fmap, !length_app in Heq. lia.
Qed.

(** X2. Sanitizing is idempotent on every result that is not empty: a
    sanitized name passes through [safe_name] unchanged. *)
Theorem safe_name_idempotent (name : option pystr) :
  safe_name name ≠ [] → safe_name (Some (safe_name name)) = safe_name name.
Proof.
  intros Hne.
  pose proof (proj2 (proj2 (safe_name_contract name))) as Hall.
  destruct (safe_name_no_outer_space name) as [Hhd Hlast].
  destruct (safe_name name) as [|c r] eqn:Hr; [done|].
  cbn [safe_name].
  rewrite (sanitize_allowed_id _ Hall). by apply strip_id.
Qed.

Lemma ascii_isalnum_not_space c : ascii_isalnum c = true → isspace c = false.
Proof.
  unfold ascii_isalnum, isspace. intros H.
  repeat (apply orb_true_iff in H as [H|H]);
    apply andb_true_iff in H as [H1%N.leb_le H2%N.leb_le];
    repeat (apply orb_false_iff; split);
    try (apply andb_false_iff); try (apply N.eqb_neq); try lia;
    try (left; apply N.leb_gt; lia); try (right; apply N.leb_gt; lia).
Qed.

Lemma lstrip_spaces s : Forall (fun c => c = 32%N) s → lstrip s = [].
Proof. induction 1 as [|c s -> _ IH]; [done|]. done. Qed.

Lemma is_trim_of_nil s :
  is_trim_of s [] → Forall (fun c => isspace c = true) s.
Proof. intros (pre & post & -> & Hpre & Hpost & _). by apply Forall_app. Qed.

(** X3. Provided no whitespace character counts as alphanumeric,
    [safe_name] returns the empty string exactly for the names that are
    not empty and made of spaces only. *)
Theorem safe_name_empty_iff (s : pystr) :
  (∀ c, unicode_isalnum c = true → isspace c = false) →
  safe_name (Some s) = [] ↔ s ≠ [] ∧ Forall (fun c => c = 32%N) s.
Proof.
  intros Hdisj. split.
  - intros Hempty. destruct s as [|c0 s0]; [done|]. split; [done|].
    cbn [safe_name] in Hempty.
    pose proof (strip_is_trim (sanitize_char <$> c0 :: s0)) as Htrim.
    rewrite Hempty in Htrim. apply is_trim_of_nil in Htrim.
    apply Forall_fmap in Htrim. eapply Forall_impl; [exact Htrim|].
    intros c Hc. simpl in Hc. unfold sanitize_char in Hc.
    destruct (isalnum c || in_extra c) eqn:Hallowed; [|done].
    apply orb_true_iff in Hallowed as [Halnum | Hextra].
    + unfold isalnum in Halnum. destruct (c <? 128)%N.
      * by rewrite (ascii_isalnum_not_space c Halnum) in Hc.
      * by rewrite (Hdisj c Halnum) in Hc.
    + unfold in_extra in Hextra. apply bool_decide_eq_true in Hextra.
      repeat (apply elem_of_cons in Hextra as [-> | Hextra]); try done.
      by apply elem_of_nil in Hextra.
  - intros [Hne Hall]. destruct s as [|c0 s0]; [done|]. cbn [safe_name].
    rewrite sanitize_allowed_id.
    + unfold strip. by rewrite lstrip_spaces.
    + eapply Forall_impl; [exact Hall|]. by intros c ->.
Qed.

(** ** The registry over a run *)

Lemma process_object_no_base out_dir obj st :
  base_of obj = None → process_object out_dir obj st = st.
Proof.
  unfold base_of, process_object.
  destruct (dict_get TYPE_META (type_name obj)); [|done].
  by destruct (parse_and_name obj) as [[data base]|e].
Qed.

Lemma process_object_base out_dir obj st base :
  base_of obj = Some base →
  seen_names (process_object out_dir obj st) = (deduplicate base (seen_names st)).2
  ∧ (assets (process_object out_dir obj st) = assets st
     ∨ ∃ e, Asset.name e = (deduplicate base (seen_names st)).1
            ∧ Asset.unityType e = type_name obj
            ∧ Asset.bundle e = default (py "unknown") (assets_file_name obj)
            ∧ assets (process_object out_dir obj st) = assets st ++ [e]).
Proof.
  unfold base_of. intros Hbase.
  destruct (dict_get TYPE_META (type_name obj)) as [meta|] eqn:Hmeta; [|done].
  destruct (parse_and_name obj) as [[data b]|e] eqn:Hparse; [|done].
  injection Hbase as ->.
  destruct (export (deduplicate base (seen_names st)).1 data obj) as [content|] eqn:Hexp.
  - rewrite (process_object_exported _ _ _ _ _ _ _ Hmeta Hparse Hexp).
    split; [done|]. right.
    by exists (make_entry obj meta (deduplicate base (seen_names st)).1
                 (os_path_join (meta_type meta)
                    ((deduplicate base (seen_names st)).1 ++ py "." ++ meta_ext meta))
                 content).
  - rewrite (process_object_failed_export _ _ _ _ _ _ Hmeta Hparse Hexp).
    split; [done|]. by left.
Qed.

Lemma run_loop_registry out_dir objs : ∀ st,
  seen_names (run_loop out_dir objs st) = (dedup_calls (bases objs) (seen_names st)).2.
Proof.
  induction objs as [|obj objs IH]; intros st; [done|].
  rewrite run_loop_cons, IH. unfold bases. cbn [omap list_omap].
  destruct (base_of obj) as [base|] eqn:Hbase.
  - rewrite (proj1 (process_object_base out_dir obj st base Hbase)).
    cbn [dedup_calls].
    destruct (deduplicate base (seen_names st)) as [r seen1]. cbn [snd].
    by destruct (dedup_calls (omap base_of objs) seen1).
  - by rewrite (process_object_no_base _ _ _ Hbase).
Qed.

Lemma run_loop_names out_dir objs : ∀ st,
  ∃ names, names `sublist_of` (dedup_calls (bases objs) (seen_names st)).1
    ∧ Asset.name <$> assets (run_loop out_dir objs st)
      = (Asset.name <$> assets st) ++ names.
Proof.
  induction objs as [|obj objs IH]; intros st.
  { exists []. split; [done|]. by rewrite app_nil_r. }
  rewrite run_loop_cons. unfold bases. cbn [omap list_omap].
  destruct (IH (process_object out_dir obj st)) as (names & Hsub & Hnames).
  destruct (base_of obj) as [base|] eqn:Hbase.
  - destruct (process_object_base out_dir obj st base Hbase) as [Hseen Hassets].
    rewrite Hseen in Hsub. cbn [dedup_calls].
    destruct (deduplicate base (seen_names st)) as [r seen1]. cbn [fst snd] in *.
    fold (bases objs).
    destruct (dedup_calls (bases objs) seen1) as [rs seen2]. cbn [fst] in *.
    destruct Hassets as [Heq | (e & Hname & _ & _ & Heq)]; rewrite Heq in Hnames.
    + exists names. split; [by apply sublist_cons | done].
    + exists (r :: names). split; [by apply sublist_skip|].
      rewrite Hnames, fmap_app, <- app_assoc. simpl. by rewrite Hname.
  - rewrite (process_object_no_base _ _ _ Hbase) in *. by exists names.
Qed.

(** X4. After a run, the registry holds a base name exactly when some
    object of a type in the table was parsed and got that name, and its
    counter is the number of such objects minus one, whether or not their
    export succeeded. *)
Theorem registry_counts (out_dir : pystr) (objs : list ObjectRecord) (base : pystr) :
  let n := length (filter (fun b => b = base) (bases objs)) in
  seen_names (run_loop out_dir objs initial) !! base
  = if decide (n = 0%nat) then None else Some (Z.of_nat n - 1).
Proof.
  intros n. rewrite run_loop_registry.
  assert (Hreq : requested (seen_names initial) base 0) by (split; [lia | done]).
  destruct (results_for_requested base (bases objs) _ 0 Hreq) as [_ [_ Hfin]].
  fold n in Hfin. rewrite Hfin.
  repeat case_decide; try lia; try done; f_equal; lia.
Qed.

(** ** When the names of a run are pairwise distinct *)

Lemma app_eq_shorter {A} (x1 y1 x2 y2 : list A) :
  x1 ++ y1 = x2 ++ y2 → (length x2 < length x1)%nat →
  ∃ z, z ≠ [] ∧ x1 = x2 ++ z ∧ y2 = z ++ y1.
Proof.
  revert x2. induction x1 as [|a x1 IH]; intros x2 Heq Hlen; [simpl in Hlen; lia|].
  destruct x2 as [|b x2].
  - simpl in Heq. exists (a :: x1). split_and!; [done | done | by rewrite <- Heq].
  - simpl in *. injection Heq as -> Heq.
    destruct (IH x2 Heq ltac:(lia)) as (z & Hz & -> & ->). by exists z.
Qed.

Lemma suffixed_cross b1 b2 j k :
  b1 ≠ b2 →
  (∀ rest, rest ≠ [] → b1 ≠ b2 ++ py "_" ++ rest) →
  (∀ rest, rest ≠ [] → b2 ≠ b1 ++ py "_" ++ rest) →
  suffixed b1 j ≠ suffixed b2 k.
Proof.
  intros Hne H12 H21. unfold suffixed.
  destruct (decide (j = 0)), (decide (k = 0)); intros Heq.
  - done.
  - apply (H12 (str_int k)); [apply str_int_numeral | done].
  - apply (H21 (str_int j)); [apply str_int_numeral | done].
  - destruct (Nat.lt_trichotomy (length b1) (length b2)) as [Hlt | [Hlen | Hgt]].
    + destruct (app_eq_shorter b2 _ b1 _ (eq_sym Heq) Hlt) as (z & Hz & -> & Hz').
      destruct z as [|c z]; [done|]. injection Hz' as <- Hz'.
      destruct z as [|c z]; [by apply str_int_no_underscore in Hz'|].
      by apply (H21 (c :: z)).
    + apply app_inj_1 in Heq as [? _]; done.
    + destruct (app_eq_shorter b1 _ b2 _ Heq Hgt) as (z & Hz & -> & Hz').
      destruct z as [|c z]; [done|]. injection Hz' as <- Hz'.
      destruct z as [|c z]; [by apply str_int_no_underscore in Hz'|].
      by apply (H12 (c :: z)).
Qed.

Lemma dedup_calls_distinct calls : ∀ (all : list pystr) seen (cnt : pystr → Z),
  no_underscore_extension all → calls ⊆ all →
  (∀ b, requested seen b (cnt b)) →
  NoDup (dedup_calls calls seen).1
  ∧ Forall (fun r => ∃ b k, b ∈ calls ∧ cnt b ≤ k ∧ r = suffixed b k)
      (dedup_calls calls seen).1.
Proof.
  induction calls as [|c calls IH]; intros all seen cnt Hext Hsub Hreq.
  { split; constructor. }
  cbn [dedup_calls].
  destruct (deduplicate_requested seen c (cnt c) (Hreq c)) as [Hr Hreq_c].
  destruct (deduplicate c seen) as [r seen1] eqn:Hd. cbn [fst snd] in *.
  set (cnt1 := fun b => if decide (b = c) then cnt c + 1 else cnt b).
  assert (Hreq1 : ∀ b, requested seen1 b (cnt1 b)).
  { intros b. unfold cnt1. case_decide as Hb; [by subst b|].
    destruct (Hreq b) as [Hk Hs]. split; [done|].
    rewrite <- Hs. change seen1 with ((r, seen1).2). rewrite <- Hd.
    apply deduplicate_other. congruence. }
  assert (Hc : c ∈ all) by (apply Hsub; by left).
  assert (Hsub1 : calls ⊆ all) by (intros x Hx; apply Hsub; by right).
  destruct (IH all seen1 cnt1 Hext Hsub1 Hreq1) as [Hnodup Hshape].
  destruct (dedup_calls calls seen1) as [rs seen2]. cbn [fst] in *.
  split.
  - constructor; [|done]. intros Hin.
    rewrite Forall_forall in Hshape.
    destruct (Hshape r Hin) as (b & k & Hb & Hk & Hrk). rewrite Hr in Hrk.
    unfold cnt1 in Hk. case_decide as Hbc.
    + subst b. apply suffixed_inj in Hrk. lia.
    + revert Hrk. apply suffixed_cross; [congruence | |];
        intros rest Hrest; apply Hext; auto.
  - constructor.
    + exists c, (cnt c). split_and!; [by left | lia | done].
    + eapply Forall_impl; [exact Hshape|].
      intros r' (b & k & Hb & Hk & ->). exists b, k. split_and!; [by right | | done].
      unfold cnt1 in Hk. case_decide; [subst b|]; lia.
Qed.

(** X5. When no base name of a run is another base name of the run
    followed by an underscore and at least one more character, the entries
    of the run have pairwise distinct names. *)
Theorem names_distinct (out_dir : pystr) (objs : list ObjectRecord) :
  no_underscore_extension (bases objs) →
  NoDup (Asset.name <$> assets (run_loop out_dir objs initial)).
Proof.
  intros Hext.
  destruct (run_loop_names out_dir objs initial) as (names & Hsub & ->).
  simpl. eapply sublist_NoDup; [|exact Hsub].
  apply (dedup_calls_distinct _ (bases objs) _ (fun _ => 0)); [done | done |].
  intros b. split; [lia | done].
Qed.

(** ** Shape of the entry list *)

(** X6. Objects whose type is not in the table are skipped without a
    trace: removing them from the sequence changes neither the entries nor
    the registry of the run. *)
Theorem unknown_types_leave_no_trace (out_dir : pystr)
    (objs : list ObjectRecord) (st : RunState) :
  run_loop out_dir
    (filter (fun obj => is_Some (dict_get TYPE_META (type_name obj))) objs) st
  = run_loop out_dir objs st.
Proof.
  revert st. induction objs as [|obj objs IH]; intros st; [done|].
  destruct (dict_get TYPE_META (type_name obj)) as [meta|] eqn:Hmeta.
  - rewrite filter_cons_True by (by rewrite Hmeta). by rewrite !run_loop_cons, IH.
  - rewrite filter_cons_False by (rewrite Hmeta; by intros [? ?]).
    rewrite run_loop_cons, IH. f_equal.
    unfold process_object. by rewrite Hmeta.
Qed.

Lemma run_loop_origins out_dir objs : ∀ st,
  ∃ origins, origins `sublist_of` (object_origin <$> objs)
    ∧ entry_origin <$> assets (run_loop out_dir objs st)
      = (entry_origin <$> assets st) ++ origins.
Proof.
  induction objs as [|obj objs IH]; intros st.
  { exists []. split; [done|]. by rewrite app_nil_r. }
  rewrite run_loop_cons.
  destruct (IH (process_object out_dir obj st)) as (origins & Hsub & Hrun).
  rewrite Hrun. cbn [fmap list_fmap].
  destruct (base_of obj) as [base|] eqn:Hbase.
  - destruct (process_object_base out_dir obj st base Hbase)
      as [_ [-> | (e & _ & Htype & Hbundle & ->)]].
    + exists origins. split; [by apply sublist_cons | done].
    + exists (object_origin obj :: origins). split; [by apply sublist_skip|].
      rewrite fmap_app, <- app_assoc. simpl.
      unfold entry_origin at 2, object_origin. by rewrite Htype, Hbundle.
  - rewrite (process_object_no_base _ _ _ Hbase).
    exists origins. split; [by apply sublist_cons | done].
Qed.

(** X7. The entries of a run follow the order of the objects: their type
    tags and bundles, the bundle being [unknown] for an object whose file
    has no name, form a subsequence of those of the objects; so there are
    at most as many entries as objects. *)
Theorem entries_follow_objects (out_dir : pystr) (objs : list ObjectRecord) :
  entry_origin <$> assets (run_loop out_dir objs initial)
    `sublist_of` (object_origin <$> objs)
  ∧ (length (assets (run_loop out_dir objs initial)) ≤ length objs)%nat.
Proof.
  destruct (run_loop_origins out_dir objs initial) as (origins & Hsub & Heq).
  simpl in Heq. split.
  - by rewrite Heq.
  - apply sublist_length in Hsub.
    apply (f_equal length) in Heq. rewrite !length_fmap in *. lia.
Qed.

(** X8. Every entry of a run carries the rendering by [fmt_bytes] of its
    own [sizeBytes] as [size], and the display marker the table gives for
    its [unityType] as [emoji]. *)
Theorem entries_display_fields (out_dir : pystr) (objs : list ObjectRecord) :
  Forall (fun e =>
            Asset.size e = fmt_bytes (Asset.sizeBytes e)
            ∧ ∃ meta, dict_get TYPE_META (Asset.unityType e) = Some meta
                      ∧ Asset.emoji e = meta_emoji meta)
    (assets (run_loop out_dir objs initial)).
Proof.
  apply run_loop_Forall; [|by constructor].
  intros obj st meta data base content Hmeta _ name rel_path _.
  split; [done | by exists meta].
Qed.

(** ** More on the exporters *)

Lemma write_triples_ragged line : ∀ n a,
  (length a < n)%nat → (length a `mod` 3 ≠ 0)%nat →
  ∃ e, write_triples line a = Raise e.
Proof.
  induction n as [|n IH]; intros a Hlen Hmod; [lia|].
  destruct a as [|x [|y [|z rest]]].
  - done.
  - by eexists.
  - by eexists.
  - rewrite write_triples_cons. cbn [length] in Hlen, Hmod.
    assert (Hrest : (length rest `mod` 3 ≠ 0)%nat).
    { intros Hr. apply Hmod.
      replace (S (S (S (length rest)))) with (length rest + 1 * 3)%nat by lia.
      by rewrite Nat.Div0.mod_add. }
    destruct (IH rest ltac:(lia) Hrest) as [e He].
    rewrite He. destruct (line x y z) as [l|e']; by eexists.
Qed.

Lemma export_mesh_ragged name obj items a :
  parse_as_dict obj = Ok items →
  dict_get items (py "m_Vertices") = Some (VList a)
  ∨ dict_get items (py "m_IndexBuffer") = Some (VList a) →
  (length a `mod` 3 ≠ 0)%nat →
  ∃ e, export_mesh name obj = Raise e.
Proof.
  intros Hdict Harray Hmod.
  unfold export_mesh, mesh_text. rewrite Hdict, res_bind_Ok.
  destruct (write_triples_ragged vertex_line (S (length a)) a ltac:(lia) Hmod) as [e1 He1].
  destruct (write_triples_ragged face_line (S (length a)) a ltac:(lia) Hmod) as [e2 He2].
  unfold tree_get.
  destruct Harray as [-> | Hidx]; cbn [default from_option id as_sequence].
  - rewrite res_bind_Ok, He1. by eexists.
  - destruct (as_sequence (default (VList []) (dict_get items (py "m_Vertices"))))
      as [verts|e]; [|by eexists]. rewrite res_bind_Ok.
    destruct (write_triples vertex_line verts) as [vlines|e]; [|by eexists].
    rewrite res_bind_Ok, Hidx. cbn [default from_option id as_sequence].
    rewrite res_bind_Ok, He2. by eexists.
Qed.

(** X9. A mesh whose vertex array or index array is a list whose length
    is not a multiple of 3 is not exported: the exporter raises inside its
    [try] block and the iteration appends no entry. *)
Theorem ragged_mesh_not_exported (out_dir : pystr) (obj : ObjectRecord)
    (items : list (pystr * pyval)) (a : list pyval) :
  type_name obj = py "Mesh" →
  parse_as_dict obj = Ok items →
  dict_get items (py "m_Vertices") = Some (VList a)
  ∨ dict_get items (py "m_IndexBuffer") = Some (VList a) →
  (length a `mod` 3 ≠ 0)%nat →
  (∀ name data, export name data obj = None)
  ∧ (∀ st, assets (process_object out_dir obj st) = assets st).
Proof.
  intros Htype Hdict Harray Hmod.
  assert (Hnone : ∀ name data, export name data obj = None).
  { intros name data.
    destruct (export_mesh_ragged name obj items a Hdict Harray Hmod) as [e He].
    unfold export. rewrite Htype, He. done. }
  split; [done|]. intros st.
  destruct (process_object_inv out_dir obj st)
    as [-> | (meta & d & base & _ & _ & [-> | (content & Hcontent & _)])]; [done..|].
  by rewrite Hnone in Hcontent.
Qed.

Lemma first_sample_Some items c :
  first_sample items = Some c ↔
  ∃ pre k post, items = pre ++ (k, c) :: post ∧ c ≠ []
    ∧ Forall (fun kv : pystr * bytes => kv.2 = []) pre.
Proof.
  unfold first_sample. induction items as [|[k v] items IH]; cbn [find].
  - split; [done|]. intros (pre & k & post & Heq & _). by destruct pre.
  - destruct (decide (v = [])) as [->|Hv].
    + rewrite bool_decide_eq_true_2 by done. cbn [negb]. rewrite IH. split.
      * intros (pre & k' & post & -> & Hc & Hpre).
        exists ((k, []) :: pre), k', post. split_and!; [done | done | by constructor].
      * intros (pre & k' & post & Heq & Hc & Hpre).
        destruct pre as [|p pre]; simplify_eq/=.
        apply Forall_cons in Hpre as [_ Hpre]. by exists pre, k', post.
    + rewrite bool_decide_eq_false_2 by done. cbn [negb fmap option_fmap option_map snd]. split.
      * intros [= <-]. exists [], k, items. split_and!; [done | done | constructor].
      * intros (pre & k' & post & Heq & Hc & Hpre).
        destruct pre as [|p pre]; simplify_eq/=; [done|].
        by apply Forall_cons in Hpre as [? _].
Qed.

Lemma first_sample_None items :
  first_sample items = None ↔ Forall (fun kv : pystr * bytes => kv.2 = []) items.
Proof.
  unfold first_sample. induction items as [|[k v] items IH]; cbn [find].
  - split; [constructor | done].
  - destruct (decide (v = [])) as [->|Hv].
    + rewrite bool_decide_eq_true_2 by done. cbn [negb]. rewrite IH. split.
      * by constructor.
      * by intros [_ ?]%Forall_cons.
    + rewrite bool_decide_eq_false_2 by done. cbn [negb]. split; [done|].
      by intros [? _]%Forall_cons.
Qed.

(** X10. The audio exporter writes the first sample that is not empty,
    whatever follows it, and writes nothing when every sample is empty or
    when reading the samples raises. *)
Theorem export_audio_first_sample (data : Payload) (c : bytes) :
  (try_pass (export_audio data) = Some c ↔
   ∃ pre k post, samples data = Ok (pre ++ (k, c) :: post) ∧ c ≠ []
     ∧ Forall (fun kv : pystr * bytes => kv.2 = []) pre)
  ∧ (try_pass (export_audio data) = None ↔
     (∃ e, samples data = Raise e)
     ∨ ∃ items, samples data = Ok items
         ∧ Forall (fun kv : pystr * bytes => kv.2 = []) items).
Proof.
  unfold export_audio. destruct (samples data) as [items|e]; cbn [try_pass mbind res_bind mret res_ret].
  - split.
    + rewrite first_sample_Some. split.
      * intros (pre & k & post & -> & ? & ?). by exists pre, k, post.
      * intros (pre & k & post & [= ->] & ? & ?). by exists pre, k, post.
    + rewrite first_sample_None. split.
      * intros Hall. right. by exists items.
      * by intros [[e [=]] | (items' & [= <-] & Hall)].
  - split.
    + split; [done|]. by intros (pre & k & post & [=] & _).
    + split; [intros _; left; by eexists | done].
Qed.

(** ** More on the entry point *)

Lemma build_stats_total entries :
  Stats.total (build_stats entries) = Z.of_nat (length entries).
Proof. unfold build_stats. by destruct (foldl stats_step (∅, 0) entries). Qed.

(** X11. With fewer than three arguments after the script name, nothing
    is extracted, no manifest is written and the exit code is 1, whatever
    the AssetSource. *)
Theorem main_usage_error (UnityPy_load : pystr → res Environment)
    (argv : list pystr) :
  (length argv < 4)%nat →
  main UnityPy_load argv = {| manifest := None; exit_code := 1 |}.
Proof.
  intros Hlen. destruct argv as [|a0 [|a1 [|a2 [|a3 rest]]]]; try done.
  simpl in Hlen. lia.
Qed.

Lemma rev_head_no_slash l : slash ∉ l → rev_head l = [].
Proof.
  induction l as [|c l IH]; [done|]. intros Hnot. cbn [rev_head].
  destruct (c =? slash)%N eqn:Hc.
  - apply N.eqb_eq in Hc as ->. destruct Hnot. by left.
  - apply IH. intros Hin. apply Hnot. by right.
Qed.

Lemma os_path_dirname_no_slash p : slash ∉ p → os_path_dirname p = [].
Proof.
  intros Hnot. unfold os_path_dirname.
  rewrite rev_head_no_slash; [done|]. by rewrite elem_of_reverse.
Qed.

(** X12. The directory part of a path is empty exactly when the path has
    no slash; and with a manifest path without a slash, [os.makedirs]
    raises on the empty directory name outside the [try] block: no manifest
    is written and the exit code is 1, even when the extraction
    succeeded. *)
Theorem manifest_path_without_directory (UnityPy_load : pystr → res Environment)
    (argv0 apk_path out_dir manifest_path : pystr) (rest : list pystr) :
  (os_path_dirname manifest_path = [] ↔ slash ∉ manifest_path)
  ∧ (slash ∉ manifest_path →
     main UnityPy_load (argv0 :: apk_path :: out_dir :: manifest_path :: rest)
     = {| manifest := None; exit_code := 1 |}).
Proof.
  split.
  - split; [|apply os_path_dirname_no_slash].
    intros Hdir Hin. by apply (os_path_dirname_nonempty manifest_path Hin).
  - intros Hnot. unfold main. by rewrite (os_path_dirname_no_slash _ Hnot).
Qed.

(** X13. With an empty output directory the archive is never opened:
    whatever the AssetSource, the manifest written is [ok: false] with the
    message of the [FileNotFoundError] that [os.makedirs] raises, and the
    exit code is 1. *)
Theorem empty_out_dir_is_fatal (UnityPy_load : pystr → res Environment)
    (argv0 apk_path manifest_path : pystr) :
  os_path_dirname manifest_path ≠ [] →
  extract_apk UnityPy_load apk_path [] = Raise FileNotFoundError
  ∧ ∃ trace,
      main UnityPy_load [argv0; apk_path; []; manifest_path]
      = {| manifest :=
             Some (ManifestError (py "[Errno 2] No such file or directory: ''") trace);
           exit_code := 1 |}.
Proof.
  intros Hdir. split; [done|].
  rewrite main_written by done. by eexists.
Qed.

(** X14. The exit code is 0 or 1, and it is 0 exactly when a manifest
    with [ok: true] was written; the stats of such a manifest are those of
    [build_stats] on its own assets, so [total] is their number. *)
Theorem exit_code_zero_iff_ok (UnityPy_load : pystr → res Environment)
    (argv : list pystr) :
  (exit_code (main UnityPy_load argv) = 0 ∨ exit_code (main UnityPy_load argv) = 1)
  ∧ (exit_code (main UnityPy_load argv) = 0 ↔
     ∃ entries stats, manifest (main UnityPy_load argv) = Some (ManifestOk entries stats))
  ∧ (∀ entries stats,
       manifest (main UnityPy_load argv) = Some (ManifestOk entries stats) →
       stats = build_stats entries
       ∧ Stats.total stats = Z.of_nat (length entries)).
Proof.
  unfold main.
  destruct argv as [|a0 [|a1 [|a2 [|a3 rest]]]];
    try (split_and!; [by right | split; [done | by intros (? & ? & ?)] | done]).
  destruct (os_makedirs (os_path_dirname a3));
    [|split_and!; [by right | split; [done | by intros (? & ? & ?)] | done]].
  unfold run_result. destruct (extract_apk UnityPy_load a1 a2) as [entries|e]; simpl.
  - split_and!; [by left | split; [intros _; by do 2 eexists | done] |].
    intros entries' stats [= <- <-]. split; [done|].
    apply build_stats_total.
  - split_and!; [by right | split; [done | by intros (? & ? & ?)] | done].
Qed.

(** X15. An archive without objects is not an error: the manifest is
    [ok: true] with no asset, [total] 0, no category, a total size of
    [0 B] and no bundle, and the exit code is 0. *)
Theorem empty_archive_manifest (UnityPy_load : pystr → res Environment)
    (argv0 apk_path out_dir manifest_path : pystr) (env : Environment) :
  out_dir ≠ [] →
  os_path_dirname manifest_path ≠ [] →
  UnityPy_load apk_path = Ok env →
  objects env = Ok [] →
  main UnityPy_load [argv0; apk_path; out_dir; manifest_path]
  = {| manifest :=
         Some (ManifestOk []
                 {| Stats.total := 0; Stats.byType := ∅;
                    Stats.totalSize := py "0 B"; Stats.bundleCount := 0 |});
       exit_code := 0 |}.
Proof.
  intros Hout Hdir Hload Hobjs. rewrite main_written by done.
  unfold run_result.
  by rewrite (extract_apk_loaded _ _ _ _ _ Hout Hload Hobjs).
Qed.

(** ** More on [build_stats] *)

Lemma stats_fold_total entries : ∀ acc,
  (foldl stats_step acc entries).2 = acc.2 + total_bytes entries.
Proof.
  unfold total_bytes.
  induction entries as [|a entries IH]; intros acc; [simpl; lia|].
  cbn [foldl]. rewrite IH. unfold stats_step.
  cbn [snd fmap list_fmap foldr]. lia.
Qed.

Lemma stats_fold_lookup c entries : ∀ acc,
  (foldl stats_step acc entries).1 !! c
  = if decide (count_of_type c entries = 0%nat) then acc.1 !! c
    else Some (default 0 (acc.1 !! c) + Z.of_nat (count_of_type c entries)).
Proof.
  unfold count_of_type.
  induction entries as [|a entries IH]; intros acc; [done|].
  cbn [foldl]. rewrite IH.
  assert (Hstep : (stats_step acc a).1
                  = <[Asset.type a := default 0 (acc.1 !! Asset.type a) + 1]> (acc.1))
    by done.
  rewrite Hstep. clear Hstep.
  destruct (decide (Asset.type a = c)) as [<-|Hne].
  - rewrite filter_cons_True by done. cbn [length].
    rewrite lookup_insert_eq. cbn [default from_option id].
    repeat case_decide; try lia; f_equal; lia.
  - rewrite filter_cons_False by done. rewrite lookup_insert_ne by done. done.
Qed.

Lemma length_remove_dups_le (l : list pystr) :
  (length (remove_dups l) ≤ length l)%nat.
Proof. induction l as [|x l IH]; [done|]. simpl. case_decide; simpl; lia. Qed.

(** X16. [totalSize] is the rendering by [fmt_bytes] of the sum of the
    [sizeBytes] of the entries. *)
Theorem build_stats_total_size (entries : list Asset.t) :
  Stats.totalSize (build_stats entries) = fmt_bytes (total_bytes entries).
Proof.
  unfold build_stats.
  pose proof (stats_fold_total entries (∅, 0)) as Htotal.
  destruct (foldl stats_step (∅, 0) entries) as [by_type total].
  simpl in *. by rewrite Htotal.
Qed.

(** X17. [byType] has a key exactly for the categories that occur among
    the entries, with the number of their entries as value, so no count is
    zero; and [bundleCount] is at most [total], and is zero only when
    there is no entry. *)
Theorem build_stats_keys (entries : list Asset.t) :
  (∀ c, Stats.byType (build_stats entries) !! c
        = if decide (count_of_type c entries = 0%nat) then None
          else Some (Z.of_nat (count_of_type c entries)))
  ∧ (∀ c, is_Some (Stats.byType (build_stats entries) !! c)
          ↔ c ∈ Asset.type <$> entries)
  ∧ 0 ≤ Stats.bundleCount (build_stats entries) ≤ Stats.total (build_stats entries)
  ∧ (Stats.bundleCount (build_stats entries) = 0 ↔ entries = []).
Proof.
  assert (Hlookup : ∀ c, Stats.byType (build_stats entries) !! c
        = if decide (count_of_type c entries = 0%nat) then None
          else Some (Z.of_nat (count_of_type c entries))).
  { intros c. unfold build_stats.
    pose proof (stats_fold_lookup c entries (∅, 0)) as Hl.
    destruct (foldl stats_step (∅, 0) entries) as [by_type total].
    simpl in *. rewrite Hl, lookup_empty. case_decide; [done|]. simpl. done. }
  assert (Hbundles : Stats.bundleCount (build_stats entries)
                     = Z.of_nat (length (remove_dups (Asset.bundle <$> entries)))).
  { unfold build_stats. destruct (foldl stats_step (∅, 0) entries). simpl.
    by rewrite size_set_of_list. }
  split_and!.
  - done.
  - intros c. rewrite Hlookup. unfold count_of_type.
    rewrite list_elem_of_fmap. split.
    + case_decide as Hn; [by intros [? ?]|]. intros _.
      destruct (filter (λ a, Asset.type a = c) entries) as [|a l] eqn:Hf; [done|].
      assert (a ∈ filter (λ a, Asset.type a = c) entries) as Ha by (rewrite Hf; by left).
      apply list_elem_of_filter in Ha as [Hc Ha]. by exists a.
    + intros (a & -> & Ha). case_decide as Hn; [|by eexists].
      assert (a ∈ filter (λ a', Asset.type a' = Asset.type a) entries) as Hin
        by by apply list_elem_of_filter.
      destruct (filter _ entries); [by apply elem_of_nil in Hin | done].
  - rewrite Hbundles. lia.
  - rewrite Hbundles, build_stats_total.
    pose proof (length_remove_dups_le (Asset.bundle <$> entries)) as Hle.
    rewrite length_fmap in Hle. lia.
  - rewrite Hbundles. destruct entries as [|a entries]; [done|].
    split; [|done]. cbn [fmap list_fmap remove_dups].
    case_decide as Hin; [|simpl; lia].
    intros Hz. exfalso.
    assert (Asset.bundle a ∈ remove_dups (Asset.bundle <$> entries)) as Hin'
      by by apply elem_of_remove_dups.
    assert (remove_dups (Asset.bundle <$> entries) = []) as Hnil
      by (apply nil_length_inv; lia).
    rewrite Hnil in Hin'. by apply elem_of_nil in Hin'.
Qed.

Lemma total_bytes_perm l1 l2 : l1 ≡ₚ l2 → total_bytes l1 = total_bytes l2.
Proof.
  unfold total_bytes.
  induction 1 as [|a l1 l2 _ IH|a b l|l1 l2 l3 _ IH1 _ IH2];
    cbn [fmap list_fmap foldr] in *; lia.
Qed.

(** X18. The stats do not depend on the order of the entries: two lists
    that are permutations of each other get the same stats. *)
Theorem build_stats_order_irrelevant (l1 l2 : list Asset.t) :
  l1 ≡ₚ l2 → build_stats l1 = build_stats l2.
Proof.
  intros Hperm.
  unfold build_stats.
  pose proof (stats_fold_total l1 (∅, 0)) as Ht1.
  pose proof (stats_fold_total l2 (∅, 0)) as Ht2.
  pose proof (fun c => stats_fold_lookup c l1 (∅, 0)) as Hl1.
  pose proof (fun c => stats_fold_lookup c l2 (∅, 0)) as Hl2.
  destruct (foldl stats_step (∅, 0) l1) as [by1 t1].
  destruct (foldl stats_step (∅, 0) l2) as [by2 t2]. simpl in *.
  assert (by1 = by2) as ->.
  { apply map_eq. intros c. rewrite Hl1, Hl2.
    assert (count_of_type c l1 = count_of_type c l2) as ->; [|done].
    unfold count_of_type. by rewrite Hperm. }
  assert (t1 = t2) as -> by (rewrite Ht1, Ht2; f_equal; by apply total_bytes_perm).
  assert ((list_to_set (Asset.bundle <$> l1) : gset pystr)
          = list_to_set (Asset.bundle <$> l2)) as ->.
  { apply set_eq. intros x. rewrite !elem_of_list_to_set. by rewrite Hperm. }
  by rewrite (Permutation_length Hperm).
Qed.

(** ** More on [fmt_bytes] *)

(** X19. In the kilobyte range the number shown lies between 1.0 and
    1024.0, and it is 1024.0 exactly from 1048525 bytes on: such a count
    is rendered [1024.0 KB], not in megabytes. *)
Theorem fmt_bytes_kilobyte_range (b : Z) :
  1024 ≤ b < 1024 ^ 2 →
  let t := tenths (true_div_pow2 b 10) in
  fmt_bytes b = str_int (t / 10) ++ py "." ++ str_int (t mod 10) ++ py " KB"
  ∧ 10 ≤ t ≤ 10240
  ∧ (t = 10240 ↔ 1048525 ≤ b)
  ∧ (1048525 ≤ b → fmt_bytes b = py "1024.0 KB").
Proof.
  intros [Hge Hlt] t.
  assert (Ht : t = round_half_even (b * 10) (2 ^ 10)) by (apply tenths_exact; lia).
  pose proof (round_half_even_nearest (b * 10) (2 ^ 10) ltac:(lia)) as Hnear.
  rewrite <- Ht in Hnear.
  assert (Hfmt : fmt_bytes b
                 = str_int (t / 10) ++ py "." ++ str_int (t mod 10) ++ py " KB").
  { unfold fmt_bytes.
    destruct (Z.ltb_spec b 1024); [lia|].
    destruct (Z.ltb_spec b (1024 ^ 2)); [|lia].
    unfold format_1f, one_decimal. fold t. by rewrite <- !app_assoc. }
  assert (Hedge : t = 10240 ↔ 1048525 ≤ b) by lia.
  split_and!; [done | lia | lia | done |].
  intros Hb. rewrite Hfmt. by replace t with 10240 by lia.
Qed.

(** ** Complete runs *)

Lemma run_loop_all_export out_dir post : ∀ pre,
  (∀ mid obj rest,
     post = mid ++ obj :: rest →
     exports_in (seen_names (run_loop out_dir (pre ++ mid) initial)) obj) →
  entry_origin <$> assets (run_loop out_dir (pre ++ post) initial)
  = (entry_origin <$> assets (run_loop out_dir pre initial))
    ++ (object_origin <$> post).
Proof.
  induction post as [|obj post IH]; intros pre Hall.
  { by rewrite !app_nil_r. }
  replace (pre ++ obj :: post) with ((pre ++ [obj]) ++ post)
    by by rewrite <- app_assoc.
  rewrite IH.
  - destruct (Hall [] obj post eq_refl)
      as (meta & data & base & Hmeta & Hparse & [content Hexp]).
    rewrite app_nil_r in Hexp.
    rewrite run_loop_app, run_loop_cons. cbn [run_loop foldl].
    rewrite (process_object_exported _ _ _ _ _ _ _ Hmeta Hparse Hexp).
    cbn [assets]. by rewrite fmap_app, <- app_assoc.
  - intros mid o rest ->. rewrite <- app_assoc. by apply (Hall (obj :: mid) o rest).
Qed.

(** X21. When every object of the sequence has a type of the table,
    parses, and its exporter succeeds under the name the deduplicator
    hands it when its turn comes, the run yields exactly one entry per
    object, in the order of the objects. *)
Theorem complete_run (out_dir : pystr) (objs : list ObjectRecord) :
  all_export out_dir objs →
  entry_origin <$> assets (run_loop out_dir objs initial) = object_origin <$> objs
  ∧ length (assets (run_loop out_dir objs initial)) = length objs.
Proof.
  intros Hall. pose proof (run_loop_all_export out_dir objs [] Hall) as Heq.
  simpl in Heq. split; [done|].
  apply (f_equal length) in Heq. by rewrite !length_fmap in Heq.
Qed.

End Extractor.

(** * Concrete runs *)

(** The scenario of a texture named [Icon!]. *)
Example run_icon :
  (fun e => (Asset.name e, Asset.ext e, Asset.type e, Asset.relativePath e))
    <$> assets (run_loop ascii_only whole_add_one ascii_only (py "out") [icon] initial)
  = [(py "Icon_", py "png", py "texture", py "texture/Icon_.png")].
Proof. reflexivity. Qed.

(** The scenario of two audio clips named [Hit]. *)
Example run_two_hits :
  Asset.relativePath <$> assets (run_loop ascii_only whole_add_one ascii_only (py "out") [hit; hit] initial)
  = [py "audio/Hit.wav"; py "audio/Hit_1.wav"].
Proof. reflexivity. Qed.

Example json_sample :
  json_dumps (VDict [(py "a", VInt 1); (py "b", VList [VInt 1; VNone]); (py "c", VDict [])])
  = py "{" ++ nl ++ py "  " ++ json_string (py "a") ++ py ": 1," ++ nl
    ++ py "  " ++ json_string (py "b") ++ py ": [" ++ nl ++ py "    1," ++ nl
    ++ py "    null" ++ nl ++ py "  ]," ++ nl
    ++ py "  " ++ json_string (py "c") ++ py ": {}" ++ nl ++ py "}".
Proof. reflexivity. Qed.

(** [repr] of a list of strings: the quote is chosen by the content and
    a line break is escaped. *)
Example py_repr_sample :
  py_repr ascii_only (VList [VStr (py "a'b"); VStr (py "a" ++ nl); VFloat (py "1.5")])
  = py "[" ++ [34%N] ++ py "a'b" ++ [34%N] ++ py ", 'a\n', 1.5]".
Proof. reflexivity. Qed.

(** A mesh whose items are not numbers is still written: each item is
    formatted with [str], and one is added to a float index. *)
Example odd_mesh_file :
  export_mesh ascii_only whole_add_one (py "Odd") odd_mesh
  = Ok (Some (encode_utf8_replace
      (py "# Exported by UnityRip" ++ nl ++ py "# Mesh: Odd" ++ nl
       ++ py "v [1, 2] None True" ++ nl ++ py "f 1.0 2.0 3.0" ++ nl))).
Proof. reflexivity. Qed.

Example fmt_bytes_rounding :
  fmt_bytes 1075 = py "1.0 KB" ∧ fmt_bytes 1076 = py "1.1 KB"
  ∧ fmt_bytes 1280 = py "1.2 KB" ∧ fmt_bytes 1792 = py "1.8 KB"
  ∧ fmt_bytes 1048575 = py "1024.0 KB"
  ∧ fmt_bytes (2 ^ 53 + 1) = py "8589934592.0 MB"
  ∧ fmt_bytes 2951479051793529044992 = py "2814749767106561.0 MB".
Proof. repeat split; reflexivity. Qed.

(** C1, at a run of three textures named [a] and an audio clip, where
    the second texture cannot be encoded. *)
Lemma failed_object_does_not_stop_run_witness :
  export_fails ascii_only whole_add_one ascii_only (unsaveable_texture "a")
    (run_loop ascii_only whole_add_one ascii_only (py "out") [texture_a] initial)
  ∧ ∃ entries,
      extract_apk ascii_only whole_add_one ascii_only
        (source_of [texture_a; unsaveable_texture "a"; texture_a; hit])
        (py "game.apk") (py "out") = Ok entries
      ∧ Asset.relativePath <$> entries
        = [py "texture/a.png"; py "texture/a_2.png"; py "audio/Hit.wav"]
      ∧ main ascii_only whole_add_one ascii_only
          (source_of [texture_a; unsaveable_texture "a"; texture_a; hit])
          [py "extract.py"; py "game.apk"; py "out"; py "out/manifest.json"]
        = {| manifest := Some (ManifestOk entries (build_stats entries));
             exit_code := 0 |}.
Proof.
  assert (Hfail : export_fails ascii_only whole_add_one ascii_only (unsaveable_texture "a")
            (run_loop ascii_only whole_add_one ascii_only (py "out") [texture_a] initial))
    by (eexists _, _; split; reflexivity).
  split; [exact Hfail|].
  destruct (failed_object_does_not_stop_run ascii_only whole_add_one ascii_only
              (source_of [texture_a; unsaveable_texture "a"; texture_a; hit])
              (py "game.apk") (py "out")
              {| objects := Ok [texture_a; unsaveable_texture "a"; texture_a; hit] |}
              [texture_a] [texture_a; hit] (unsaveable_texture "a")
              (py "extract.py") (py "out/manifest.json")
              ltac:(discriminate) eq_refl eq_refl ltac:(discriminate)
              (ex_intro _ _ eq_refl) (or_intror Hfail))
    as (_ & _ & _ & Hrun & _ & _ & Hmain).
  eexists. split; [exact Hrun|]. split; [reflexivity | exact Hmain].
Defined.

(** C4, at four calls, three of them for [Hit]. *)
Lemma deduplicate_same_base_witness :
  (∅ : gmap pystr Z) !! py "Hit" = None
  ∧ results_for (py "Hit") [py "Hit"; py "Boom"; py "Hit"; py "Hit"]
      (dedup_calls [py "Hit"; py "Boom"; py "Hit"; py "Hit"] ∅).1
    = [py "Hit"; py "Hit_1"; py "Hit_2"].
Proof.
  split; [apply lookup_empty|].
  destruct (deduplicate_same_base (py "Hit")
              [py "Hit"; py "Boom"; py "Hit"; py "Hit"] ∅ (lookup_empty _))
    as (_ & Hres & _).
  rewrite Hres. reflexivity.
Defined.

(** C5, at a texture without pixel data. *)
Lemma failed_export_leaves_no_entry_witness :
  dict_get TYPE_META (type_name blank_texture)
  = Some (Meta (py "texture") [128444%N] (py "png"))
  ∧ assets (process_object ascii_only whole_add_one ascii_only (py "out") blank_texture initial) = [].
Proof.
  split; [reflexivity|].
  destruct (failed_export_leaves_no_entry ascii_only whole_add_one ascii_only (py "out") blank_texture initial
              (Meta (py "texture") [128444%N] (py "png"))
              {| m_Name := Ok (Some (py "Blank")); image := Ok None;
                 samples := Raise AttributeError; m_Script := Raise AttributeError |}
              (py "Blank") eq_refl eq_refl)
    as (Hnone & _).
  exact (Hnone eq_refl).
Defined.

(** C6, at a mesh of one triangle. *)
Lemma export_mesh_lines_witness :
  parse_as_dict (mesh_object "Tri" triangle_tree) = Ok triangle_tree
  ∧ export_mesh ascii_only whole_add_one (py "Tri") (mesh_object "Tri" triangle_tree)
    = Ok (Some (encode_utf8_replace
        (py "# Exported by UnityRip" ++ nl ++ py "# Mesh: Tri" ++ nl
         ++ py "v 0.0 0.0 0.0" ++ nl ++ py "v 1.0 0.0 0.0" ++ nl
         ++ py "v 0.0 1.5 2" ++ nl ++ py "f 1 2 3" ++ nl))).
Proof.
  split; [reflexivity|].
  rewrite (export_mesh_lines ascii_only whole_add_one (py "Tri") (mesh_object "Tri" triangle_tree) triangle_tree
             [(VFloat (py "0.0"), VFloat (py "0.0"), VFloat (py "0.0"));
              (VFloat (py "1.0"), VFloat (py "0.0"), VFloat (py "0.0"));
              (VFloat (py "0.0"), VFloat (py "1.5"), VInt 2)]
             [(0, 1, 2)] eq_refl
             ltac:(repeat constructor) (or_introl eq_refl) (or_introl eq_refl)).
  reflexivity.
Defined.

(** C8, at 2048 bytes. *)
Lemma fmt_bytes_units_witness :
  0 ≤ 2048 ∧ fmt_bytes 2048 = py "2.0 KB".
Proof.
  split; [discriminate|].
  destruct (fmt_bytes_units 2048 ltac:(discriminate)) as (_ & _ & _ & _ & H & _).
  exact H.
Defined.

(** C9, at an archive that is not a zip file. *)
Lemma fatal_failure_manifest_witness :
  os_path_dirname (py "out/manifest.json") ≠ []
  ∧ main ascii_only whole_add_one ascii_only
      (failing_source (Exn (py "BadZipFile") (py "File is not a zip file") []))
      [py "extract.py"; py "game.apk"; py "out"; py "out/manifest.json"]
    = {| manifest :=
           Some (ManifestError (py "File is not a zip file")
                   (py "Traceback (most recent call last):" ++ nl
                    ++ py "BadZipFile: File is not a zip file" ++ nl));
         exit_code := 1 |}.
Proof.
  split; [discriminate|].
  destruct (fatal_failure_manifest ascii_only whole_add_one ascii_only
              (failing_source (Exn (py "BadZipFile") (py "File is not a zip file") []))
              (py "game.apk") (py "out") (py "extract.py") (py "out/manifest.json")
              (Exn (py "BadZipFile") (py "File is not a zip file") [])
              ltac:(discriminate) ltac:(discriminate) (or_introl eq_refl))
    as (Hmain & _).
  rewrite Hmain. reflexivity.
Defined.

(** C6 as first stated fails: the file of a mesh of one triangle starts
    with two comment lines, so it is not made of the vertex and face lines
    alone. *)
Lemma mesh_file_has_header :
  export_mesh ascii_only whole_add_one (py "Tri") (mesh_object "Tri" triangle_tree)
  = Ok (Some (encode_utf8_replace
      (py "# Exported by UnityRip" ++ nl ++ py "# Mesh: Tri" ++ nl
       ++ py "v 0.0 0.0 0.0" ++ nl ++ py "v 1.0 0.0 0.0" ++ nl
       ++ py "v 0.0 1.5 2" ++ nl ++ py "f 1 2 3" ++ nl)))
  ∧ export_mesh ascii_only whole_add_one (py "Tri") (mesh_object "Tri" triangle_tree)
    ≠ Ok (Some (encode_utf8_replace
        (py "v 0.0 0.0 0.0" ++ nl ++ py "v 1.0 0.0 0.0" ++ nl
         ++ py "v 0.0 1.5 2" ++ nl ++ py "f 1 2 3" ++ nl))).
Proof. split; [reflexivity | by vm_compute]. Qed.

(** C1 as first stated fails: after a texture [a] whose export raises, a
    second texture [a] is exported as [a_1], while the run without the
    first one exports it as [a]; the entry list does not merely omit the
    failed object. *)
Lemma failed_export_consumes_name :
  export_fails ascii_only whole_add_one ascii_only (unsaveable_texture "a") initial
  ∧ (∃ entries,
       extract_apk ascii_only whole_add_one ascii_only
         (source_of [unsaveable_texture "a"; texture_a]) (py "game.apk") (py "out")
       = Ok entries
       ∧ Asset.relativePath <$> entries = [py "texture/a_1.png"])
  ∧ (∃ entries,
       extract_apk ascii_only whole_add_one ascii_only
         (source_of [texture_a]) (py "game.apk") (py "out")
       = Ok entries
       ∧ Asset.relativePath <$> entries = [py "texture/a.png"])
  ∧ extract_apk ascii_only whole_add_one ascii_only
      (source_of [unsaveable_texture "a"; texture_a]) (py "game.apk") (py "out")
    ≠ extract_apk ascii_only whole_add_one ascii_only
        (source_of [texture_a]) (py "game.apk") (py "out").
Proof.
  split_and!.
  - eexists _, _. split; reflexivity.
  - eexists. split; reflexivity.
  - eexists. split; reflexivity.
  - by vm_compute.
Qed.

(** C9 as first stated fails: an exception without a message leaves an
    empty [error] in the manifest. *)
Lemma fatal_failure_empty_error :
  main ascii_only whole_add_one ascii_only (failing_source (Exn (py "AssertionError") [] []))
    [py "extract.py"; py "game.apk"; py "out"; py "out/manifest.json"]
  = {| manifest :=
         Some (ManifestError []
                 (py "Traceback (most recent call last):" ++ nl
                  ++ py "AssertionError" ++ nl));
       exit_code := 1 |}.
Proof. reflexivity. Qed.

(** * Concrete instances of the further properties *)

(** X2, at a name with blanks around it and a character to replace. *)
Lemma safe_name_idempotent_witness :
  safe_name ascii_only (Some (py " Icon! ")) ≠ []
  ∧ safe_name ascii_only (Some (safe_name ascii_only (Some (py " Icon! "))))
    = py "Icon_".
Proof.
  assert (Hne : safe_name ascii_only (Some (py " Icon! ")) ≠ []) by discriminate.
  split; [exact Hne|].
  rewrite (safe_name_idempotent ascii_only (Some (py " Icon! ")) Hne). reflexivity.
Defined.

(** X3, at a name of two spaces. *)
Lemma safe_name_empty_iff_witness :
  (∀ c, ascii_only c = true → isspace c = false)
  ∧ safe_name ascii_only (Some (py "  ")) = [].
Proof.
  assert (Hdisj : ∀ c, ascii_only c = true → isspace c = false) by discriminate.
  split; [exact Hdisj|].
  apply (safe_name_empty_iff ascii_only (py "  ") Hdisj).
  split; [discriminate | repeat constructor].
Defined.

(** X5, at a run of textures named [a], [a_], [a] and [a_]. *)
Lemma names_distinct_witness :
  bases ascii_only
    [texture_a; image_object "Texture2D" "a_" []; texture_a;
     image_object "Texture2D" "a_" []]
  = [py "a"; py "a_"; py "a"; py "a_"]
  ∧ Asset.name
      <$> assets (run_loop ascii_only whole_add_one ascii_only (py "out")
                    [texture_a; image_object "Texture2D" "a_" []; texture_a;
                     image_object "Texture2D" "a_" []] initial)
    = [py "a"; py "a_"; py "a_1"; py "a__1"]
  ∧ NoDup (Asset.name
      <$> assets (run_loop ascii_only whole_add_one ascii_only (py "out")
                    [texture_a; image_object "Texture2D" "a_" []; texture_a;
                     image_object "Texture2D" "a_" []] initial)).
Proof.
  assert (Hbases : bases ascii_only
            [texture_a; image_object "Texture2D" "a_" []; texture_a;
             image_object "Texture2D" "a_" []]
          = [py "a"; py "a_"; py "a"; py "a_"]) by reflexivity.
  split; [exact Hbases|]. split; [reflexivity|].
  apply (names_distinct ascii_only whole_add_one ascii_only (py "out")).
  rewrite Hbases. intros b1 b2 rest H1 H2 Hrest Heq.
  repeat (apply elem_of_cons in H1 as [-> | H1]);
    try (by apply elem_of_nil in H1);
    repeat (apply elem_of_cons in H2 as [-> | H2]);
    try (by apply elem_of_nil in H2);
    first [discriminate Heq | injection Heq as Heq; by symmetry in Heq].
Defined.

(** X9, at a mesh with four vertex numbers. *)
Lemma ragged_mesh_not_exported_witness :
  (4 `mod` 3 ≠ 0)%nat
  ∧ assets (process_object ascii_only whole_add_one ascii_only (py "out") ragged_mesh initial) = [].
Proof.
  assert (Hmod : (4 `mod` 3 ≠ 0)%nat) by discriminate.
  split; [exact Hmod|].
  destruct (ragged_mesh_not_exported ascii_only whole_add_one ascii_only (py "out") ragged_mesh
              [(py "m_Name", VStr (py "Bad"));
               (py "m_Vertices", VList [VInt 0; VInt 1; VInt 2; VInt 3])]
              [VInt 0; VInt 1; VInt 2; VInt 3]
              eq_refl eq_refl (or_introl eq_refl) Hmod) as [_ Hassets].
  exact (Hassets initial).
Defined.

(** X11, at a call with the archive path only. *)
Lemma main_usage_error_witness :
  main ascii_only whole_add_one ascii_only (source_of [logo]) [py "extract.py"; py "game.apk"]
  = {| manifest := None; exit_code := 1 |}.
Proof.
  apply (main_usage_error ascii_only whole_add_one ascii_only (source_of [logo]) [py "extract.py"; py "game.apk"]).
  repeat constructor.
Defined.

(** X13, at an empty output directory. *)
Lemma empty_out_dir_is_fatal_witness :
  os_path_dirname (py "out/manifest.json") ≠ []
  ∧ extract_apk ascii_only whole_add_one ascii_only (source_of [logo]) (py "game.apk") []
    = Raise FileNotFoundError.
Proof.
  assert (Hdir : os_path_dirname (py "out/manifest.json") ≠ []) by discriminate.
  split; [exact Hdir|].
  exact (proj1 (empty_out_dir_is_fatal ascii_only whole_add_one ascii_only (source_of [logo])
                  (py "extract.py") (py "game.apk") (py "out/manifest.json") Hdir)).
Defined.

(** X15, at an archive without objects. *)
Lemma empty_archive_manifest_witness :
  main ascii_only whole_add_one ascii_only (source_of [])
    [py "extract.py"; py "game.apk"; py "out"; py "out/manifest.json"]
  = {| manifest :=
         Some (ManifestOk []
                 {| Stats.total := 0; Stats.byType := ∅;
                    Stats.totalSize := py "0 B"; Stats.bundleCount := 0 |});
       exit_code := 0 |}.
Proof.
  apply (empty_archive_manifest ascii_only whole_add_one ascii_only (source_of [])
           (py "extract.py") (py "game.apk") (py "out") (py "out/manifest.json")
           {| objects := Ok [] |});
    [discriminate | discriminate | reflexivity | reflexivity].
Defined.

(** X18, at two entries in both orders. *)
Lemma build_stats_order_irrelevant_witness :
  [entry_logo; entry_hit] ≡ₚ [entry_hit; entry_logo]
  ∧ build_stats [entry_logo; entry_hit] = build_stats [entry_hit; entry_logo].
Proof.
  assert (Hperm : [entry_logo; entry_hit] ≡ₚ [entry_hit; entry_logo])
    by apply perm_swap.
  split; [exact Hperm|].
  exact (build_stats_order_irrelevant _ _ Hperm).
Defined.

(** X19, at one byte below 1024^2. *)
Lemma fmt_bytes_kilobyte_range_witness :
  1024 ≤ 1048575 < 1024 ^ 2 ∧ fmt_bytes 1048575 = py "1024.0 KB".
Proof.
  assert (Hb : 1024 ≤ 1048575 < 1024 ^ 2) by (split; [discriminate | reflexivity]).
  split; [exact Hb|].
  destruct (fmt_bytes_kilobyte_range 1048575 Hb) as (_ & _ & _ & Hedge).
  apply Hedge. discriminate.
Defined.

(** X21, at a run of a texture, a mesh of one triangle and an audio
    clip. *)
Lemma complete_run_witness :
  all_export ascii_only whole_add_one ascii_only (py "out")
    [logo; mesh_object "Tri" triangle_tree; hit]
  ∧ entry_origin
      <$> assets (run_loop ascii_only whole_add_one ascii_only (py "out")
                    [logo; mesh_object "Tri" triangle_tree; hit] initial)
    = [(py "Texture2D", py "sharedassets0.assets"); (py "Mesh", py "unknown");
       (py "AudioClip", py "unknown")].
Proof.
  assert (Hall : all_export ascii_only whole_add_one ascii_only (py "out")
                   [logo; mesh_object "Tri" triangle_tree; hit]).
  { intros pre obj post Heq.
    destruct pre as [|o1 [|o2 [|o3 pre]]].
    - injection Heq as <- _.
      eexists _, _, _. split_and!; [reflexivity | reflexivity | eexists; reflexivity].
    - injection Heq as <- <- _.
      eexists _, _, _. split_and!; [reflexivity | reflexivity | eexists; reflexivity].
    - injection Heq as <- <- <- _.
      eexists _, _, _. split_and!; [reflexivity | reflexivity | eexists; reflexivity].
    - injection Heq as _ _ _ Heq. by destruct pre. }
  split; [exact Hall|].
  rewrite (proj1 (complete_run ascii_only whole_add_one ascii_only (py "out")
                    [logo; mesh_object "Tri" triangle_tree; hit] Hall)).
  reflexivity.
Defined.
